(** * momoshop_scraper: a shallow embedding of [scripts/momoshop_scraper.py]

    The script downloads one category page, extracts product listings from
    the parsed document (product cards first, inline scripts as a fallback),
    filters them by keyword and prints them as text or JSON, optionally
    writing a CSV file.

    Layout of the development:
    - [PyStr]      Python [str] values as lists of code points, with the
                   string methods the script calls;
    - [Unicode]    the character tables behind [str.lower];
    - [Re]         the fragment of Python's [re] the two patterns of the
                   script are written in, as a backtracking matcher;
    - [json], [Bs4], [Json], [Builtins], [World]  the values and library
                   calls the script relies on (BeautifulSoup, json, [str],
                   requests, the file system), as interfaces;
    - [Product]    the dataclass as it is annotated, with its methods;
                   [Obj.Product] the objects that exist at run time, whose
                   category is whatever value the metadata held;
    - the functions of the script, under their own names; [main] takes
                   the arguments that [parse_args] returns;
    - [Dom], [Examples]  an implementation of the interfaces on a small
                   document tree, and pages to run the script on;
    - the properties. *)

From Stdlib Require Import NArith ZArith String Ascii.
From stdpp Require Import base decidable option list.

Local Open Scope N_scope.

(** ** Python strings *)

(** A Python [str] is a sequence of Unicode code points. *)
Abbreviation str := (list N) (only parsing).

Module PyStr.

(** An ASCII literal of the script, as a [str]. *)
Definition lit (s : string) : str := map N_of_ascii (list_ascii_of_string s).

Definition space : N := 32.

(** [s.replace(" ", "")]: every U+0020 is dropped. *)
Fixpoint remove_spaces (s : str) : str :=
  match s with
  | [] => []
  | c :: s' => if c =? space then remove_spaces s' else c :: remove_spaces s'
  end.

(** [sep.join(parts)]. *)
Fixpoint join (sep : str) (parts : list str) : str :=
  match parts with
  | [] => []
  | [p] => p
  | p :: ps => p ++ sep ++ join sep ps
  end.

(** [s.startswith(p)]. *)
Fixpoint starts_with (p s : str) : bool :=
  match p, s with
  | [], _ => true
  | _ :: _, [] => false
  | a :: p', b :: s' => (a =? b) && starts_with p' s'
  end.

(** [needle in hay]: [needle] occurs in [hay] as a contiguous run. *)
Fixpoint contains (needle hay : str) : bool :=
  starts_with needle hay ||
  match hay with
  | [] => false
  | _ :: hay' => contains needle hay'
  end.

(** Truth value of an optional string: [None] and [""] are falsy. *)
Definition truthy (o : option str) : bool :=
  match o with
  | Some (_ :: _) => true
  | _ => false
  end.

(** [a or b] on optional strings. *)
Definition or_else (a b : option str) : option str :=
  if truthy a then a else b.

(** [o or ""]. *)
Definition or_empty (o : option str) : str :=
  match o with
  | Some s => s
  | None => []
  end.

Fixpoint of_uint (u : Decimal.uint) : str :=
  match u with
  | Decimal.Nil => []
  | Decimal.D0 u' => 48 :: of_uint u'
  | Decimal.D1 u' => 49 :: of_uint u'
  | Decimal.D2 u' => 50 :: of_uint u'
  | Decimal.D3 u' => 51 :: of_uint u'
  | Decimal.D4 u' => 52 :: of_uint u'
  | Decimal.D5 u' => 53 :: of_uint u'
  | Decimal.D6 u' => 54 :: of_uint u'
  | Decimal.D7 u' => 55 :: of_uint u'
  | Decimal.D8 u' => 56 :: of_uint u'
  | Decimal.D9 u' => 57 :: of_uint u'
  end.

(** [str(n)] for a length. *)
Definition of_nat (n : nat) : str := of_uint (Nat.to_uint n).

(** [l[:n]]: a negative [n] counts from the end. *)
Definition slice_to {A} (l : list A) (n : Z) : list A :=
  if (n <? 0)%Z then take (length l - Z.to_nat (- n)) l
  else take (Z.to_nat n) l.

(** [filter(None, items)]: the truthy items, in order. *)
Fixpoint filter_none (items : list (option str)) : list str :=
  match items with
  | [] => []
  | Some (c :: s) :: items' => (c :: s) :: filter_none items'
  | _ :: items' => filter_none items'
  end.

End PyStr.

(** ** [str.lower]

    CPython lowers a string one code point at a time.  Every code point is
    replaced by its full lowercase mapping taken from the Unicode
    character database, except GREEK CAPITAL LETTER SIGMA (U+03A3), which
    becomes a final sigma (U+03C2) or a small sigma (U+03C3) depending on
    the cased and case-ignorable characters around it.  The database is
    not part of the script: it is an interface here. *)

Class Unicode := {
  to_lower_full : N -> list N;
  is_cased : N -> bool;
  is_case_ignorable : N -> bool
}.

Section Lower.
Context {U : Unicode}.

Definition capital_sigma : N := 0x3A3.
Definition final_sigma : N := 0x3C2.
Definition small_sigma : N := 0x3C3.

(** The first code point of [s] that is not case-ignorable. *)
Fixpoint skip_ignorable (s : str) : option N :=
  match s with
  | [] => None
  | c :: s' => if is_case_ignorable c then skip_ignorable s' else Some c
  end.

(** [handle_capital_sigma]: [before] is the text to the left of the
    sigma, nearest character first, [after] the text to its right. *)
Definition handle_capital_sigma (before after : str) : N :=
  match skip_ignorable before with
  | Some c =>
      if is_cased c then
        match skip_ignorable after with
        | None => final_sigma
        | Some d => if is_cased d then small_sigma else final_sigma
        end
      else small_sigma
  | None => small_sigma
  end.

Definition lower_ucs4 (before : str) (c : N) (after : str) : list N :=
  if c =? capital_sigma then [handle_capital_sigma before after]
  else to_lower_full c.

(** [do_lower], with the characters already visited kept in [before]
    (nearest first). *)
Fixpoint do_lower (before s : str) : str :=
  match s with
  | [] => []
  | c :: s' => lower_ucs4 before c s' ++ do_lower (c :: before) s'
  end.

Definition lower (s : str) : str := do_lower [] s.

End Lower.

(** ** Regular expressions

    The script has two patterns.  Both are sequences of single characters
    and character classes under the quantifiers [?], [*], [*?] and [+],
    with capturing groups around some of them.  [Re] models that fragment
    of Python's [re] the way the engine runs it: leftmost match first, a
    greedy quantifier trying the longest run first, a lazy one the
    shortest, backtracking on failure. *)

Module Re.

(** What one position of a pattern accepts. *)
Inductive cclass :=
| Chr (c : N)                       (* the character itself *)
| Dot                               (* [.]: anything but a newline *)
| Space                             (* [\s] *)
| OneOf (ranges : list (N * N))     (* a set of ranges *)
| NoneOf (ranges : list (N * N)).   (* a negated set *)

Inductive quant := Once | Opt | Star | LazyStar | Plus.

(** A pattern is a sequence of quantified classes and group marks: group
    [g] (counted from 1) lies between [Mark (2 * g - 2)] and
    [Mark (2 * g - 1)]. *)
Inductive item :=
| Rep (q : quant) (c : cclass)
| Mark (i : nat).

Definition pattern := list item.

Definition in_ranges (ranges : list (N * N)) (x : N) : bool :=
  existsb (fun r => (fst r <=? x) && (x <=? snd r)) ranges.

(** The code points [\s] matches in a [str] pattern. *)
Definition whitespace : list (N * N) :=
  [(0x09, 0x0D); (0x1C, 0x20); (0x85, 0x85); (0xA0, 0xA0);
   (0x1680, 0x1680); (0x2000, 0x200A); (0x2028, 0x2029);
   (0x202F, 0x202F); (0x205F, 0x205F); (0x3000, 0x3000)].

Definition newline : N := 10.

Definition accepts (c : cclass) (x : N) : bool :=
  match c with
  | Chr y => x =? y
  | Dot => negb (x =? newline)
  | Space => in_ranges whitespace x
  | OneOf ranges => in_ranges ranges x
  | NoneOf ranges => negb (in_ranges ranges x)
  end.

(** The marks set so far, newest first. *)
Definition marks := list (nat * nat).

(** The rest of a match: from a position, the text that starts there
    and the marks, to the end position and the final marks. *)
Definition cont := nat -> str -> marks -> option (nat * marks).

(** A continuation never ends a match before the position it starts
    at. *)
Definition advances (k : cont) : Prop :=
  forall pos s m e m', k pos s m = Some (e, m') -> (pos <= e)%nat.

Definition step (c : cclass) (k : cont) : cont :=
  fun pos s m =>
    match s with
    | x :: s' => if accepts c x then k (S pos) s' m else None
    | [] => None
    end.

Fixpoint star_greedy (c : cclass) (k : cont) (pos : nat) (s : str)
    (m : marks) {struct s} : option (nat * marks) :=
  match s with
  | x :: s' =>
      if accepts c x then
        match star_greedy c k (S pos) s' m with
        | Some r => Some r
        | None => k pos s m
        end
      else k pos s m
  | [] => k pos s m
  end.

Fixpoint star_lazy (c : cclass) (k : cont) (pos : nat) (s : str)
    (m : marks) {struct s} : option (nat * marks) :=
  match k pos s m with
  | Some r => Some r
  | None =>
      match s with
      | x :: s' => if accepts c x then star_lazy c k (S pos) s' m else None
      | [] => None
      end
  end.

(** [match_here p pos s m]: match [p] at the start of [s], which is the
    text from position [pos] on. *)
Fixpoint match_here (p : pattern) : cont :=
  match p with
  | [] => fun pos _ m => Some (pos, m)
  | Mark i :: p' => fun pos s m => match_here p' pos s ((i, pos) :: m)
  | Rep q c :: p' =>
      let k := match_here p' in
      match q with
      | Once => step c k
      | Opt =>
          fun pos s m =>
            match step c k pos s m with
            | Some r => Some r
            | None => k pos s m
            end
      | Star => star_greedy c k
      | LazyStar => star_lazy c k
      | Plus => step c (star_greedy c k)
      end
  end.

(** A match object: where the match starts and ends, and its marks. *)
Record match_object := mkMatch {
  m_start : nat;
  m_end : nat;
  m_marks : marks
}.

(** The leftmost match in [s], the text from position [pos] on. *)
Fixpoint search_from (p : pattern) (pos : nat) (s : str)
  : option match_object :=
  match match_here p pos s [] with
  | Some (e, m) => Some (mkMatch pos e m)
  | None =>
      match s with
      | [] => None
      | _ :: s' => search_from p (S pos) s'
      end
  end.

(** [re.search(p, text)]. *)
Definition search (p : pattern) (text : str) : option match_object :=
  search_from p 0 text.

Definition mark_at (m : marks) (i : nat) : option nat :=
  snd <$> List.find (fun e => Nat.eqb (fst e) i) m.

(** [match.group(g)] for [g >= 1]; [None] when the group took no part
    in the match. *)
Definition group (text : str) (mo : match_object) (g : nat)
  : option str :=
  match mark_at (m_marks mo) (2 * g - 2), mark_at (m_marks mo) (2 * g - 1) with
  | Some b, Some e => Some (take (e - b) (drop b text))
  | _, _ => None
  end.

(** [p.finditer(text)]: the matches from left to right, each search
    starting where the previous match ended.  After an empty match the
    search moves one position further; the engine has a finer rule
    there, which no pattern of the script reaches, since none of them
    matches the empty string.  Each round moves on by at least one
    position, so [length text + 1] rounds reach the end of the text. *)
Fixpoint finditer_from (rounds : nat) (p : pattern) (text : str)
    (pos : nat) : list match_object :=
  match rounds with
  | O => []
  | S rounds' =>
      if Nat.ltb (length text) pos then []
      else
        match search_from p pos (drop pos text) with
        | None => []
        | Some mo =>
            let next :=
              if Nat.eqb (m_end mo) (m_start mo) then S (m_end mo)
              else m_end mo in
            mo :: finditer_from rounds' p text next
        end
  end.

Definition finditer (p : pattern) (text : str) : list match_object :=
  finditer_from (S (length text)) p text 0.

(** Pattern syntax. *)
Definition ch (a : ascii) : N := N_of_ascii a.
Definition chars (s : string) : pattern :=
  map (fun c => Rep Once (Chr c)) (PyStr.lit s).

End Re.

(** ** Values decoded from JSON

    What [json.loads] returns: [None], a [bool], an [int], a [float], a
    [str], a [list] or a [dict].  The script only ever asks a float for
    its truth value, so a float is kept as whether it is non-zero.  A
    [dict] is kept as its items. *)

#[warnings="-register-all"]
Inductive json :=
| JNull
| JBool (b : bool)
| JInt (n : Z)
| JFloat (nonzero : bool)
| JStr (s : str)
| JArr (items : list json)
| JObj (fields : list (str * json)).

Module PyVal.

(** Truth value of an object, as [if meta:] and [or] test it. *)
Definition truthy (v : json) : bool :=
  match v with
  | JNull => false
  | JBool b => b
  | JInt n => negb (n =? 0)%Z
  | JFloat nonzero => nonzero
  | JStr s => match s with [] => false | _ => true end
  | JArr items => match items with [] => false | _ => true end
  | JObj fields => match fields with [] => false | _ => true end
  end.

Fixpoint str_eqb (a b : str) : bool :=
  match a, b with
  | [], [] => true
  | x :: a', y :: b' => (x =? y) && str_eqb a' b'
  | _, _ => false
  end.

Fixpoint lookup (key : str) (fields : list (str * json)) : json :=
  match fields with
  | [] => JNull
  | (k, v) :: fields' => if str_eqb k key then v else lookup key fields'
  end.

(** An optional string as an object, and back. *)
Definition of_option (o : option str) : json :=
  match o with
  | Some s => JStr s
  | None => JNull
  end.

End PyVal.

(** ** Failures

    The exceptions the script can end with.  [JSONDecodeError] is the one
    [_parse_json_metadata] catches; [ValueError] and [RecursionError] are
    the others [json.loads] raises on a text; [AttributeError] comes from
    [meta.get] on a value without that method and [TypeError] from
    [str.join] on an item that is not a string. *)

Inductive failure :=
| JSONDecodeError
| ValueError
| RecursionError
| AttributeError
| TypeError
| RequestException
| HTTPError
| OSError.

Inductive result (A : Type) :=
| Ok (a : A)
| Raise (e : failure).
Arguments Ok {A} a.
Arguments Raise {A} e.

#[global] Instance result_ret : MRet result := fun A a => Ok a.
#[global] Instance result_bind : MBind result := fun A B f m =>
  match m with
  | Ok a => f a
  | Raise e => Raise e
  end.

(** [try: body except E: handler], where [catches] tells the exceptions
    that are instances of [E]. *)
Definition try_except {A} (body : result A) (catches : failure -> bool)
    (handler : result A) : result A :=
  match body with
  | Ok a => Ok a
  | Raise e => if catches e then handler else Raise e
  end.

Definition is_JSONDecodeError (e : failure) : bool :=
  match e with
  | JSONDecodeError => true
  | _ => false
  end.

(** ** The libraries

    The script calls BeautifulSoup for parsing and querying the page,
    [json] for the metadata and the JSON output, [requests] for the
    download, and opens one file.  None of them is part of the script: each
    call is a member of an interface, under the name the script uses. *)

Class Bs4 := {
  Tag : Type;
  (** [BeautifulSoup(html, "lxml")] *)
  BeautifulSoup : str -> Tag;
  (** [tag.select(css)]: the matching elements, in document order *)
  select : Tag -> str -> list Tag;
  (** [tag.select_one(css)] *)
  select_one : Tag -> str -> option Tag;
  (** [tag.find(name, attrs={attr: True})] *)
  find_with_attr : Tag -> str -> str -> option Tag;
  (** [tag.find_all(name)] *)
  find_all : Tag -> str -> list Tag;
  (** [tag.get_text(strip=...)]; [tag.text] is [tag.get_text()] *)
  get_text : Tag -> bool -> str;
  (** [tag.get(attr)] *)
  tag_get : Tag -> str -> option str;
  (** [tag.string] *)
  tag_string : Tag -> option str
}.

Class Json := {
  (** [json.loads(raw)]: the decoded value, or the exception raised *)
  json_loads : str -> result json;
  (** [json.dumps(payload, ensure_ascii=False, indent=2)] *)
  json_dumps : json -> str
}.

Record Response := mkResponse {
  status_code : Z;
  (** [response.text] once [response.encoding] is the apparent encoding *)
  apparent_text : str
}.

Class World := {
  (** [session.get(url, headers=headers, timeout=timeout)] on a session
      that ignores the environment's proxies *)
  session_get : str -> list (str * str) -> Z -> result Response;
  (** whether [open(path, "w", ...)] succeeds *)
  can_open : str -> bool
}.

Class Builtins := {
  (** [str(v)] for an object [v] that is not a string: the text an
      f-string and [csv.writer] put for it *)
  str_of : json -> str
}.

(** ** The product record

    [Product] is the dataclass with the types it declares, and
    [matches_keyword] and [filter_products] are the functions on such
    products.  The instances the script itself builds can hold any decoded
    value in [category]: they are [Obj.Product] below. *)

Record Product := mkProduct {
  title : str;
  price : option str;
  category : option str
}.

Section Filter.
Context {U : Unicode}.

(** [Product.matches_keyword]. *)
Definition matches_keyword (self : Product) (keyword : str) : bool :=
  let normalized := lower (PyStr.remove_spaces keyword) in
  let haystack :=
    PyStr.join (PyStr.lit " ")
      (PyStr.filter_none [category self; Some (title self)]) in
  PyStr.contains normalized (lower (PyStr.remove_spaces haystack)).

(** [filter_products]: the comprehension keeps, in order, the products
    for which [matches_keyword] is true. *)
Definition filter_products (products : list Product) (keyword : str)
  : list Product :=
  List.filter (fun product => matches_keyword product keyword) products.

End Filter.

(** ** Instances at run time

    A [Product] instance as the interpreter has it.  [title] and [price]
    only ever receive a string or [None]; [category] receives whatever
    the metadata of the card holds under the category keys.  [None] is
    [JNull] and a string is [JStr].  The functions of [Obj] are the
    functions of the script as they run on such instances. *)

Module Obj.

Record Product := mkProduct {
  title : str;
  price : option str;
  category : json
}.

(** The strings of [items], or [TypeError] at the first item that is
    not a string, as [str.join] goes through them. *)
Fixpoint strings (items : list json) : result (list str) :=
  match items with
  | [] => Ok []
  | JStr s :: items' => rest ← strings items'; Ok (s :: rest)
  | _ :: _ => Raise TypeError
  end.

(** [sep.join(items)] on objects. *)
Definition join_objects (sep : str) (items : list json) : result str :=
  parts ← strings items; Ok (PyStr.join sep parts).

Section Methods.
Context {U : Unicode} {P : Builtins}.

Import PyStr.

(** [Product.matches_keyword]: [filter(None, ...)] keeps the truthy
    objects, [join] wants them to be strings. *)
Definition matches_keyword (self : Product) (keyword : str) : result bool :=
  let normalized := lower (remove_spaces keyword) in
  haystack ← join_objects (lit " ")
               (List.filter PyVal.truthy [category self; JStr (title self)]);
  Ok (contains normalized (lower (remove_spaces haystack))).

(** [filter_products]: the comprehension asks every product in turn
    and stops at the first exception. *)
Fixpoint filter_products (products : list Product) (keyword : str)
  : result (list Product) :=
  match products with
  | [] => Ok []
  | product :: products' =>
      keep ← matches_keyword product keyword;
      kept ← filter_products products' keyword;
      Ok (if (keep : bool) then product :: kept else kept)
  end.

(** The text an f-string or [csv.writer] puts for an object. *)
Definition text_of (v : json) : str :=
  match v with
  | JStr s => s
  | _ => str_of v
  end.

(** One line of [format_products]. *)
Definition format_line (product : Product) : str :=
  let price_part :=
    if truthy (price product) then or_empty (price product) else lit "N/A" in
  let category_part :=
    if PyVal.truthy (category product)
    then lit " (" ++ text_of (category product) ++ lit ")"
    else [] in
  lit "- " ++ title product ++ category_part ++ lit ": " ++ price_part.

Definition format_products (products : list Product) : str :=
  PyStr.join [10] (map format_line products).

(** [product.__dict__] *)
Definition product_dict (product : Product) : json :=
  JObj [(lit "title", JStr (title product));
        (lit "price", PyVal.of_option (price product));
        (lit "category", category product)].

(** The row written for one product:
    [[product.title, product.price or "", product.category or ""]]. *)
Definition csv_row (product : Product) : list str :=
  [title product;
   or_empty (price product);
   (if PyVal.truthy (category product) then text_of (category product) else [])].

End Methods.

End Obj.

(** The instance whose fields are those of [p]. *)
Definition instance_of (p : Product) : Obj.Product :=
  Obj.mkProduct (title p) (price p) (PyVal.of_option (category p)).

(** ** Extraction *)

Section Extraction.
Context {B : Bs4} {J : Json}.

Import PyStr.

(** [_text_or_none].  A [Tag] is always truthy, so [not element] holds
    for [None] only. *)
Definition _text_or_none (element : option Tag) : option str :=
  match element with
  | None => None
  | Some e =>
      let text := get_text e true in
      if truthy (Some text) then Some text else None
  end.

(** The attribute [_parse_json_metadata] reads: [data-ec], or else
    [ec-data], or else [data-gtm]. *)
Definition metadata_raw (li : Tag) : option str :=
  or_else (or_else (tag_get li (lit "data-ec")) (tag_get li (lit "ec-data")))
          (tag_get li (lit "data-gtm")).

(** [_parse_json_metadata].  The object it returns is [JNull] where
    the function returns [None]. *)
Definition _parse_json_metadata (li : Tag) : result json :=
  let raw := metadata_raw li in
  match raw with
  | Some (c :: s) =>
      try_except
        (json_loads (c :: s))
        is_JSONDecodeError
        (Ok JNull)
  | _ => Ok JNull
  end.

(** [meta.get(key)]: only a [dict] has the method. *)
Definition meta_get (meta : json) (key : str) : result json :=
  match meta with
  | JObj fields => Ok (PyVal.lookup key fields)
  | _ => Raise AttributeError
  end.

(** [NT\$?\s*([0-9,]+)] *)
Definition price_pattern : Re.pattern :=
  Re.chars "NT"
  ++ [Re.Rep Re.Opt (Re.Chr (Re.ch "$")); Re.Rep Re.Star Re.Space;
      Re.Mark 0;
      Re.Rep Re.Plus (Re.OneOf [(Re.ch "0", Re.ch "9"); (Re.ch ",", Re.ch ",")]);
      Re.Mark 1].

(** The body of the loop of [_extract_from_cards] for one candidate, in
    the order of the source: the title, the price, the category, and
    the product to append, if any. *)
Definition card_title (li : Tag) : option str :=
  let title_node :=
    match select_one li (lit "h3, p.prdName, p[class*=name], div[class*=name]") with
    | Some node => Some node
    | None => find_with_attr li (lit "a") (lit "title")
    end in
  _text_or_none title_node.

Definition card_price (li : Tag) : option str :=
  let price_node :=
    select_one li
      (lit "span.price, span[class*=price], em[class*=price], b[class*=price]") in
  match price_node with
  | None =>
      let text := get_text li false in
      match Re.search price_pattern text with
      | Some mo => Re.group text mo 1
      | None => None
      end
  | Some node => _text_or_none (Some node)
  end.

Definition card_category (li : Tag) : result json :=
  meta ← _parse_json_metadata li;
  if PyVal.truthy meta then
    level2 ← meta_get meta (lit "cateLevel2Name");
    if PyVal.truthy level2 then Ok level2
    else meta_get meta (lit "cateLevel1Name")
  else Ok JNull.

Definition card (li : Tag) : result (option Obj.Product) :=
  let title := card_title li in
  let price := card_price li in
  category ← card_category li;
  match title with
  | Some (c :: t) => Ok (Some (Obj.mkProduct (c :: t) price category))
  | _ => Ok None
  end.

(** The loop of [_extract_from_cards] over the candidates left, with
    the products appended so far. *)
Fixpoint cards_loop (remaining : list Tag) (products : list Obj.Product)
  : result (list Obj.Product) :=
  match remaining with
  | [] => Ok products
  | li :: remaining' =>
      found ← card li;
      match found with
      | Some product => cards_loop remaining' (products ++ [product])
      | None => cards_loop remaining' products
      end
  end.

(** The candidates of [_extract_from_cards]. *)
Definition candidates (soup : Tag) : list Tag :=
  select soup
    (lit "li[data-index], li.goodsItemLi, li[class*=prd], li[class*=goodsItem]").

Definition _extract_from_cards (soup : Tag) : result (list Obj.Product) :=
  cards_loop (candidates soup) [].

(** The pattern of [_extract_from_scripts], written here with [Q] for
    an escaped double quote:
    [\{[^\}]*?goodsName\s*:\s*Q?(.*?)Q?[^\}]*?price\s*:?\s*Q?([0-9,]+)Q?[^\}]*?\}] *)
Definition script_pattern : Re.pattern :=
  let not_brace := Re.NoneOf [(Re.ch "}", Re.ch "}")] in
  let quote := Re.Chr 34 in
  [Re.Rep Re.Once (Re.Chr (Re.ch "{")); Re.Rep Re.LazyStar not_brace]
  ++ Re.chars "goodsName"
  ++ [Re.Rep Re.Star Re.Space; Re.Rep Re.Once (Re.Chr (Re.ch ":"));
      Re.Rep Re.Star Re.Space; Re.Rep Re.Opt quote;
      Re.Mark 0; Re.Rep Re.LazyStar Re.Dot; Re.Mark 1;
      Re.Rep Re.Opt quote; Re.Rep Re.LazyStar not_brace]
  ++ Re.chars "price"
  ++ [Re.Rep Re.Star Re.Space; Re.Rep Re.Opt (Re.Chr (Re.ch ":"));
      Re.Rep Re.Star Re.Space; Re.Rep Re.Opt quote;
      Re.Mark 2;
      Re.Rep Re.Plus (Re.OneOf [(Re.ch "0", Re.ch "9"); (Re.ch ",", Re.ch ",")]);
      Re.Mark 3;
      Re.Rep Re.Opt quote; Re.Rep Re.LazyStar not_brace;
      Re.Rep Re.Once (Re.Chr (Re.ch "}"))].

(** The product built from one match: [title, price = match.groups()].
    Both groups lie on the only path through the pattern, so both
    take part in every match. *)
Definition script_product (text : str) (mo : Re.match_object) : Obj.Product :=
  Obj.mkProduct (default [] (Re.group text mo 1)) (Re.group text mo 2) JNull.

(** The loop of [_extract_from_scripts] over the script elements left. *)
Fixpoint scripts_loop (scripts : list Tag) (products : list Obj.Product)
  : list Obj.Product :=
  match scripts with
  | [] => products
  | script :: scripts' =>
      let text := or_else (tag_string script) (Some (get_text script false)) in
      match text with
      | Some (c :: s) =>
          scripts_loop scripts'
            (products
             ++ map (script_product (c :: s)) (Re.finditer script_pattern (c :: s)))
      | _ => scripts_loop scripts' products
      end
  end.

Definition _extract_from_scripts (soup : Tag) : list Obj.Product :=
  scripts_loop (find_all soup (lit "script")) [].

Definition extract_products (html : str) : result (list Obj.Product) :=
  let soup := BeautifulSoup html in
  products ← _extract_from_cards soup;
  match products with
  | [] => Ok (_extract_from_scripts soup)
  | _ => Ok products
  end.

End Extraction.

(** ** Output *)

(** What a run leaves behind: the lines printed, and the CSV file opened
    for writing with the rows handed to [csv.writer]. *)
Inductive event :=
| Print (line : str)
| CsvWritten (path : str) (rows : list (list str)).

(** A computation that leaves events behind and ends with a value or an
    exception. *)
Definition io (A : Type) : Type := list event * result A.

#[global] Instance io_ret : MRet io := fun A a => ([], Ok a).
#[global] Instance io_bind : MBind io := fun A B f m =>
  match m with
  | (evs, Ok a) => let '(evs', r) := f a in (evs ++ evs', r)
  | (evs, Raise e) => (evs, Raise e)
  end.

Definition lift {A} (r : result A) : io A := ([], r).
Definition print (line : str) : io unit := ([Print line], Ok tt).

(** The arguments, as [parse_args] returns them. *)
Record Namespace := mkNamespace {
  url : str;
  keyword : str;
  as_json : bool;
  csv_path : option str;
  limit : option Z
}.

Definition DEFAULT_URL : str :=
  PyStr.lit "https://www.momoshop.com.tw/category/LgrpCategory.jsp?l_code=1912300000&mdiv=1099600000-bt_0_996_10-&ctype=B".


Section Main.
Context {U : Unicode} {P : Builtins} {B : Bs4} {J : Json} {W : World}.

Import PyStr.

Definition raise_for_status (response : Response) : result unit :=
  if (400 <=? status_code response)%Z && (status_code response <? 600)%Z
  then Raise HTTPError else Ok tt.

Definition fetch_html (url : str) (timeout : Z) : result str :=
  let headers :=
    [(lit "User-Agent",
      lit "Mozilla/5.0 (X11; Linux x86_64) AppleWebKit/537.36 (KHTML, like Gecko) Chrome/128.0.0.0 Safari/537.36")] in
  response ← session_get url headers timeout;
  _ ← raise_for_status response;
  Ok (apparent_text response).

(** One line of [format_products], for a product with the declared
    types. *)
Definition format_line (product : Product) : str :=
  let price_part :=
    if truthy (price product) then or_empty (price product) else lit "N/A" in
  let category_part :=
    if truthy (category product)
    then lit " (" ++ or_empty (category product) ++ lit ")"
    else [] in
  lit "- " ++ title product ++ category_part ++ lit ": " ++ price_part.

Definition format_products (products : list Product) : str :=
  join [10] (map format_line products).

Definition csv_header : list str := [lit "title"; lit "price"; lit "category"].

(** The [with open(...)] block of [main]. *)
Definition write_csv (path : str) (products : list Obj.Product) : io unit :=
  if can_open path
  then ([CsvWritten path (csv_header :: map Obj.csv_row products)], Ok tt)
  else lift (Raise OSError).

(** [if args.limit is not None: filtered = filtered[: args.limit]] *)
Definition apply_limit {A} (limit : option Z) (filtered : list A)
  : list A :=
  match limit with
  | Some n => slice_to filtered n
  | None => filtered
  end.

(** [main], from the arguments [parse_args] returned. *)
Definition main (args : Namespace) : io unit :=
  html ← lift (fetch_html (url args) 15);
  products ← lift (extract_products html);
  filtered ← lift (Obj.filter_products products (keyword args));
  let filtered := apply_limit (limit args) filtered in
  _ ← match csv_path args with
      | Some path => write_csv path filtered
      | None => mret tt
      end;
  match filtered with
  | [] => print (lit "No matching products found.")
  | _ =>
      _ ← (if as_json args
           then print (json_dumps (JArr (map Obj.product_dict filtered)))
           else print (Obj.format_products filtered));
      match csv_path args with
      | Some path =>
          print (lit "Saved " ++ of_nat (length filtered)
                 ++ lit " products to " ++ path)
      | None => mret tt
      end
  end.

End Main.

(** ** A reference implementation of the interfaces

    To run the script on a concrete page, the interfaces are implemented
    on a small document tree ([Dom]), with the character tables of ASCII,
    a JSON decoder given by a table, and a network with one page. *)

Module Dom.

Import PyStr.

#[warnings="-register-all"]
Inductive node :=
| Text (s : str)
| Element (name : str) (attrs : list (str * str)) (children : list node).

(** The nodes below [n], in document order. *)
Fixpoint descendants (n : node) : list node :=
  match n with
  | Text _ => []
  | Element _ _ children => flat_map (fun c => c :: descendants c) children
  end.

Fixpoint attr (a : str) (attrs : list (str * str)) : option str :=
  match attrs with
  | [] => None
  | (k, v) :: attrs' => if PyVal.str_eqb k a then Some v else attr a attrs'
  end.

Definition is_space (c : N) : bool := Re.in_ranges Re.whitespace c.

(** The words of [s], separated by whitespace; [word] is the word being
    read, in reverse. *)
Fixpoint words_from (word : str) (s : str) : list str :=
  match s with
  | [] => match word with [] => [] | _ => [rev word] end
  | c :: s' =>
      if is_space c
      then match word with
           | [] => words_from [] s'
           | _ => rev word :: words_from [] s'
           end
      else words_from (c :: word) s'
  end.

Fixpoint lstrip (s : str) : str :=
  match s with
  | c :: s' => if is_space c then lstrip s' else s
  | [] => []
  end.

Definition strip (s : str) : str := rev (lstrip (rev (lstrip s))).

(** One alternative of a selector list: an element name and a test on
    its attributes. *)
Inductive test :=
| Any
| HasAttr (a : str)
| HasClass (c : str)
| ClassContains (part : str).

Definition passes (t : test) (attrs : list (str * str)) : bool :=
  match t with
  | Any => true
  | HasAttr a => match attr a attrs with Some _ => true | None => false end
  | HasClass c =>
      match attr (lit "class") attrs with
      | Some v => existsb (PyVal.str_eqb c) (words_from [] v)
      | None => false
      end
  | ClassContains part =>
      match attr (lit "class") attrs with
      | Some v => contains part v
      | None => false
      end
  end.

Definition selects (alternatives : list (str * test)) (n : node) : bool :=
  match n with
  | Text _ => false
  | Element name attrs _ =>
      existsb (fun alt => PyVal.str_eqb (fst alt) name && passes (snd alt) attrs)
              alternatives
  end.

(** The selectors of the script. *)
Definition css (selector : str) : list (str * test) :=
  if PyVal.str_eqb selector
       (lit "li[data-index], li.goodsItemLi, li[class*=prd], li[class*=goodsItem]")
  then [(lit "li", HasAttr (lit "data-index")); (lit "li", HasClass (lit "goodsItemLi"));
        (lit "li", ClassContains (lit "prd")); (lit "li", ClassContains (lit "goodsItem"))]
  else if PyVal.str_eqb selector
       (lit "h3, p.prdName, p[class*=name], div[class*=name]")
  then [(lit "h3", Any); (lit "p", HasClass (lit "prdName"));
        (lit "p", ClassContains (lit "name")); (lit "div", ClassContains (lit "name"))]
  else if PyVal.str_eqb selector
       (lit "span.price, span[class*=price], em[class*=price], b[class*=price]")
  then [(lit "span", HasClass (lit "price")); (lit "span", ClassContains (lit "price"));
        (lit "em", ClassContains (lit "price")); (lit "b", ClassContains (lit "price"))]
  else [].

Definition texts (n : node) : list str :=
  flat_map (fun d => match d with Text s => [s] | Element _ _ _ => [] end)
           (match n with Text _ => [n] | _ => descendants n end).

Definition node_text (n : node) (stripped : bool) : str :=
  if stripped
  then concat (List.filter (fun s => truthy (Some s)) (map strip (texts n)))
  else concat (texts n).

Fixpoint node_string (n : node) : option str :=
  match n with
  | Text s => Some s
  | Element _ _ [c] => node_string c
  | Element _ _ _ => None
  end.

Definition node_get (n : node) (a : str) : option str :=
  match n with
  | Text _ => None
  | Element _ attrs _ => attr a attrs
  end.

Definition empty_document : node := Element (lit "[document]") [] [].

(** BeautifulSoup, knowing how one page parses: [source] gives [doc]. *)
Definition bs4 (source : str) (doc : node) : Bs4 := {|
  Tag := node;
  BeautifulSoup := fun html => if PyVal.str_eqb html source then doc else empty_document;
  select := fun n selector => List.filter (selects (css selector)) (descendants n);
  select_one := fun n selector => List.find (selects (css selector)) (descendants n);
  find_with_attr := fun n name a =>
    List.find (selects [(name, HasAttr a)]) (descendants n);
  find_all := fun n name => List.filter (selects [(name, Any)]) (descendants n);
  get_text := node_text;
  tag_get := node_get;
  tag_string := node_string
|}.

(** The character tables restricted to ASCII; other code points are
    left as they are. *)
Definition ascii_tables : Unicode := {|
  to_lower_full := fun c => if (65 <=? c) && (c <=? 90) then [c + 32] else [c];
  is_cased := fun c => (65 <=? c) && (c <=? 90) || (97 <=? c) && (c <=? 122);
  is_case_ignorable := fun c => existsb (N.eqb c) [39; 46; 58; 94; 96]
|}.

(** [str(n)] for an integer. *)
Definition of_Z (n : Z) : str :=
  if (n <? 0)%Z then lit "-" ++ of_nat (Z.to_nat (- n)) else of_nat (Z.to_nat n).

(** An encoder on one line, for values whose strings need no escape.  A
    float is kept by [json] only as zero or not, so the encoder and
    [repr] below write [0.0] or [1.0] for it; no page of this file holds
    one. *)
Fixpoint encode (v : json) : str :=
  match v with
  | JNull => lit "null"
  | JBool b => if b then lit "true" else lit "false"
  | JInt n => of_Z n
  | JFloat nonzero => if nonzero then lit "1.0" else lit "0.0"
  | JStr s => [34] ++ s ++ [34]
  | JArr items => lit "[" ++ join (lit ", ") (map encode items) ++ lit "]"
  | JObj fields =>
      lit "{"
      ++ join (lit ", ")
           (map (fun kv => [34] ++ fst kv ++ [34] ++ lit ": " ++ encode (snd kv)) fields)
      ++ lit "}"
  end.

(** [repr(v)], for values whose strings need no escape. *)
Fixpoint repr (v : json) : str :=
  match v with
  | JNull => lit "None"
  | JBool b => if b then lit "True" else lit "False"
  | JInt n => of_Z n
  | JFloat nonzero => if nonzero then lit "1.0" else lit "0.0"
  | JStr s => [39] ++ s ++ [39]
  | JArr items => lit "[" ++ join (lit ", ") (map repr items) ++ lit "]"
  | JObj fields =>
      lit "{"
      ++ join (lit ", ")
           (map (fun kv => [39] ++ fst kv ++ [39] ++ lit ": " ++ repr (snd kv)) fields)
      ++ lit "}"
  end.

Definition builtins : Builtins := {| str_of := repr |}.

(** A decoder that knows the texts of [decoded]; any other text is not
    JSON for it. *)
Fixpoint decode (decoded : list (str * json)) (raw : str) : result json :=
  match decoded with
  | [] => Raise JSONDecodeError
  | (k, v) :: decoded' => if PyVal.str_eqb k raw then Ok v else decode decoded' raw
  end.

Definition json_with (decoded : list (str * json)) (dumps : json -> str) : Json := {|
  json_loads := decode decoded;
  json_dumps := dumps
|}.

Definition json_table (decoded : list (str * json)) : Json :=
  json_with decoded encode.

(** A network that serves [source] at every address, and a file system
    where only [writable] paths can be opened. *)
Definition world (source : str) (writable : list str) : World := {|
  session_get := fun _ _ _ => Ok (mkResponse 200 source);
  can_open := fun path => existsb (PyVal.str_eqb path) writable
|}.

End Dom.

(** ** The vocabulary of the specification *)

Section SpecWords.
Context {U : Unicode} {P : Builtins} {J : Json}.
Import PyStr.



(** What a run prints for the listings [shown]. *)
Definition printed (args : Namespace) (shown : list Obj.Product) : list event :=
  match shown with
  | [] => [Print (lit "No matching products found.")]
  | _ =>
      Print (if as_json args
             then json_dumps (JArr (map Obj.product_dict shown))
             else Obj.format_products shown)
      :: match csv_path args with
         | Some path =>
             [Print (lit "Saved " ++ of_nat (length shown)
                     ++ lit " products to " ++ path)]
         | None => []
         end
  end.

End SpecWords.



#[global] Instance Product_eq_dec : EqDecision Product.
Proof. solve_decision. Defined.

(** A value of the JSON output and a cell of the CSV file agree: the
    value is a string and the cell is that string, or the value is [null]
    and the cell is empty. *)
Inductive agree : json -> str -> Prop :=
| agree_string (s : str) : agree (JStr s) s
| agree_missing : agree JNull [].

(** An object of the JSON output and a row of the CSV file are the same
    record: the object has the three fields, the row has three cells,
    the titles are the same string, and the prices and the categories
    agree. *)
Definition same_record (obj : json) (row : list str) : Prop :=
  exists (t : str) (p c : json) (p_cell c_cell : str),
    obj = JObj [(PyStr.lit "title", JStr t);
                (PyStr.lit "price", p);
                (PyStr.lit "category", c)]
    /\ row = [t; p_cell; c_cell]
    /\ agree p p_cell /\ agree c c_cell.

(** The category is a string or [None], as the dataclass declares. *)
Definition declared_category (product : Obj.Product) : Prop :=
  Obj.category product = JNull \/ exists s, Obj.category product = JStr s.

(** ** Pages to run the script on *)

Module Examples.

Import PyStr Dom.
Local Open Scope string_scope.

Definition el (name : string) (attrs : list (string * string))
    (children : list node) : node :=
  Element (lit name) (map (fun kv => (lit (fst kv), lit (snd kv))) attrs) children.

Definition document (children : list node) : node :=
  Element (lit "[document]") [] children.

(** A page with two product cards; the metadata of the first one is
    not JSON. *)
Definition card_page_source : str :=
  lit "<ul><li data-index=1 data-ec={bad><h3>Phone A</h3>NT$9,999</li><li class=goodsItemLi><p class=prdName>Tablet B</p><span class=price>1,200</span></li></ul>".

Definition first_card : node :=
  el "li" [("data-index", "1"); ("data-ec", "{bad")]
     [el "h3" [] [Text (lit "Phone A")]; Text (lit "NT$9,999")].

Definition second_card : node :=
  el "li" [("class", "goodsItemLi")]
     [el "p" [("class", "prdName")] [Text (lit "Tablet B")];
      el "span" [("class", "price")] [Text (lit "1,200")]].

Definition card_page : node :=
  document [el "html" [] [el "body" [] [el "ul" [] [first_card; second_card]]]].


Definition phone_a : Product := mkProduct (lit "Phone A") (Some (lit "9,999")) None.
Definition tablet_b : Product := mkProduct (lit "Tablet B") (Some (lit "1,200")) None.

(** A page without cards, with the products in an inline script. *)
Definition script_text : str :=
  lit "var goods = {goodsName:" ++ [34] ++ lit "Phone A" ++ [34]
  ++ lit ",price:" ++ [34] ++ lit "9,999" ++ [34] ++ lit "};".

Definition script_page_source : str :=
  lit "<html><head><script>" ++ script_text ++ lit "</script></head><body></body></html>".

Definition script_page : node :=
  document [el "html" [] [el "head" [] [el "script" [] [Text script_text]];
                          el "body" [] []]].

Definition card_soup : Bs4 := bs4 card_page_source card_page.
Definition script_soup : Bs4 := bs4 script_page_source script_page.
Definition no_json : Json := json_table [].
Definition card_site : World := world card_page_source [lit "out.csv"].

(** [--keyword a --limit 1] *)
Definition first_match : Namespace :=
  mkNamespace DEFAULT_URL (lit "a") false None (Some 1%Z).

(** [--keyword a --json --csv out.csv] *)
Definition json_and_csv : Namespace :=
  mkNamespace DEFAULT_URL (lit "a") true (Some (lit "out.csv")) None.

(** [--keyword zzz --csv out.csv] *)
Definition nothing_matches : Namespace :=
  mkNamespace DEFAULT_URL (lit "zzz") false (Some (lit "out.csv")) None.

End Examples.

(** ** What a match of a pattern is

    [Re.match_here] is a program.  What it finds is described by [run]:
    the items of the pattern take, one after the other, a run of
    characters that their class accepts, as many as their quantifier
    allows, and a mark records the position it is met at. *)

Module ReSpec.

Import Re.

(** How many characters an item may take. *)
Definition count_ok (q : quant) (n : nat) : Prop :=
  match q with
  | Once => n = 1%nat
  | Opt => (n <= 1)%nat
  | Star | LazyStar => True
  | Plus => (1 <= n)%nat
  end.

(** [run p pos s m e m']: the pattern [p] matches a prefix of [s], the
    text from position [pos] on, up to position [e], and the marks go
    from [m] to [m']. *)
Inductive run : pattern -> nat -> str -> marks -> nat -> marks -> Prop :=
| run_nil pos s m :
    run [] pos s m pos m
| run_mark i p pos s m e m' :
    run p pos s ((i, pos) :: m) e m' ->
    run (Mark i :: p) pos s m e m'
| run_rep q c p pos chars rest m e m' :
    Forall (fun x => accepts c x = true) chars ->
    count_ok q (length chars) ->
    run p (pos + length chars) rest m e m' ->
    run (Rep q c :: p) pos (chars ++ rest) m e m'.

(** The marks a pattern sets. *)
Fixpoint mark_ids (p : pattern) : list nat :=
  match p with
  | [] => []
  | Mark i :: p' => i :: mark_ids p'
  | Rep _ _ :: p' => mark_ids p'
  end.

(** The characters of a price: the digits and the comma. *)
Definition price_char (x : N) : Prop := (48 <= x <= 57) \/ x = 44.

End ReSpec.

(** The listing a candidate gives, when its turn of the loop ends
    without an exception. *)
Definition card_listing {B : Bs4} {J : Json} (li : Tag) : option Obj.Product :=
  match card li with
  | Ok found => found
  | Raise _ => None
  end.

(** ** More pages *)

Module MoreExamples.

Import PyStr Dom Examples.
Local Open Scope string_scope.

Definition quoted (s : string) : str := [34] ++ lit s ++ [34].

(** [{"cateLevel2Name": "AI Phone", "cateLevel1Name": "3C"}] *)
Definition category_json : str :=
  lit "{" ++ quoted "cateLevel2Name" ++ lit ": " ++ quoted "AI Phone" ++ lit ", "
  ++ quoted "cateLevel1Name" ++ lit ": " ++ quoted "3C" ++ lit "}".

Definition category_object : json :=
  JObj [(lit "cateLevel2Name", JStr (lit "AI Phone"));
        (lit "cateLevel1Name", JStr (lit "3C"))].

(** A card whose metadata names its categories. *)
Definition category_card : node :=
  Element (lit "li") [(lit "data-index", lit "1"); (lit "data-gtm", category_json)]
    [el "h3" [] [Text (lit "Phone A")]; Text (lit "NT$ 9,999")].

(** A card whose metadata is the JSON array [[1]]. *)
Definition array_card : node :=
  el "li" [("data-index", "2"); ("data-ec", "[1]")]
     [el "h3" [] [Text (lit "Phone C")]].

Definition category_page_source : str := lit "<category page>".
Definition category_page : node :=
  document [el "html" [] [el "body" [] [el "ul" [] [category_card]]]].

Definition array_page_source : str := lit "<array page>".
Definition array_page : node :=
  document [el "html" [] [el "body" [] [el "ul" [] [first_card; array_card]]]].

Definition category_soup : Bs4 := bs4 category_page_source category_page.
Definition array_soup : Bs4 := bs4 array_page_source array_page.

(** [{"cateLevel1Name": 0}] *)
Definition zero_json : str :=
  lit "{" ++ quoted "cateLevel1Name" ++ lit ": 0}".

(** A card whose metadata gives the number 0 as its category. *)
Definition zero_card : node :=
  Element (lit "li") [(lit "data-index", lit "1"); (lit "data-ec", zero_json)]
    [el "h3" [] [Text (lit "Tablet T")]].

Definition zero_page_source : str := lit "<zero page>".
Definition zero_page : node :=
  document [el "html" [] [el "body" [] [el "ul" [] [zero_card]]]].

(** [{"cateLevel2Name": 5}] *)
Definition five_json : str :=
  lit "{" ++ quoted "cateLevel2Name" ++ lit ": 5}".

(** A card whose metadata gives the number 5 as its category. *)
Definition five_card : node :=
  Element (lit "li") [(lit "data-index", lit "1"); (lit "data-ec", five_json)]
    [el "h3" [] [Text (lit "Tablet T")]].

Definition five_page_source : str := lit "<five page>".
Definition five_page : node :=
  document [el "html" [] [el "body" [] [el "ul" [] [five_card]]]].

Definition zero_soup : Bs4 := bs4 zero_page_source zero_page.
Definition five_soup : Bs4 := bs4 five_page_source five_page.
Definition zero_site : World := world zero_page_source [lit "out.csv"].
Definition five_site : World := world five_page_source [lit "out.csv"].

Definition decoder : Json :=
  json_table [(category_json, category_object); (lit "[1]", JArr [JInt 1]);
              (zero_json, JObj [(lit "cateLevel1Name", JInt 0)]);
              (five_json, JObj [(lit "cateLevel2Name", JInt 5)])].

(** [--keyword T --json --csv out.csv] *)
Definition tablets_json_and_csv : Namespace :=
  mkNamespace DEFAULT_URL (lit "T") true (Some (lit "out.csv")) None.

(** A site that answers 404. *)
Definition missing_site : World := {|
  session_get := fun _ _ _ => Ok (mkResponse 404 (lit "Not Found"));
  can_open := fun _ => true
|}.

(** The card site, with no file that can be opened. *)
Definition read_only_site : World := world card_page_source [].

(** [--keyword a --limit 0 --csv out.csv] *)
Definition limit_zero : Namespace :=
  mkNamespace DEFAULT_URL (lit "a") false (Some (lit "out.csv")) (Some 0%Z).

(** [--keyword a] *)
Definition plain : Namespace :=
  mkNamespace DEFAULT_URL (lit "a") false None None.

End MoreExamples.

(** ** Regular expressions *)

Section ReFacts.
Import Re.

Lemma step_advances (c : cclass) (k : cont) :
  advances k ->
  forall pos s m e m', step c k pos s m = Some (e, m') -> (S pos <= e)%nat.
Proof.
  intros Hk pos s m e m'. unfold step.
  destruct s as [|x s]; [done|]. destruct (accepts c x); [|done].
  apply Hk.
Qed.

Lemma star_greedy_advances (c : cclass) (k : cont) :
  advances k -> advances (star_greedy c k).
Proof.
  intros Hk pos s. revert pos.
  induction s as [|x s IH]; intros pos m e m'; simpl; [apply Hk|].
  destruct (accepts c x); [|apply Hk].
  destruct (star_greedy c k (S pos) s m) as [[e1 m1]|] eqn:Hrec.
  - intros [= <- <-]. apply IH in Hrec. lia.
  - apply Hk.
Qed.

Lemma star_lazy_advances (c : cclass) (k : cont) :
  advances k -> advances (star_lazy c k).
Proof.
  intros Hk pos s. revert pos.
  induction s as [|x s IH]; intros pos m e m'; simpl.
  - destruct (k pos [] m) as [[e1 m1]|] eqn:Hnow; [|done].
    intros [= <- <-]. by apply Hk in Hnow.
  - destruct (k pos (x :: s) m) as [[e1 m1]|] eqn:Hnow.
    + intros [= <- <-]. by apply Hk in Hnow.
    + destruct (accepts c x); [|done]. intros Hrec. apply IH in Hrec. lia.
Qed.

Lemma match_here_advances (p : pattern) : advances (match_here p).
Proof.
  induction p as [|[q c|i] p IH]; simpl.
  - intros pos s m e m' [= <- <-]. lia.
  - destruct q.
    + intros pos s m e m' Hm. apply step_advances in Hm; [lia|done].
    + intros pos s m e m'.
      destruct (step c (match_here p) pos s m) as [[e1 m1]|] eqn:Hstep.
      * intros [= <- <-]. apply step_advances in Hstep; [lia|done].
      * apply IH.
    + by apply star_greedy_advances.
    + by apply star_lazy_advances.
    + intros pos s m e m' Hm.
      apply step_advances in Hm; [lia|]. by apply star_greedy_advances.
  - intros pos s m e m'. apply IH.
Qed.

(** A match found from [pos] starts at [pos] or later, and is a match of
    the pattern at the place it starts. *)
Lemma search_from_sound (p : pattern) (s : str) :
  forall pos mo,
    search_from p pos s = Some mo ->
    (pos <= m_start mo)%nat
    /\ exists s', match_here p (m_start mo) s' [] = Some (m_end mo, m_marks mo).
Proof.
  induction s as [|x s IH]; intros pos mo; simpl.
  - destruct (match_here p pos [] []) as [[e m]|] eqn:Hm; [|done].
    intros [= <-]. simpl. split; [lia|]. by exists [].
  - destruct (match_here p pos (x :: s) []) as [[e m]|] eqn:Hm.
    + intros [= <-]. simpl. split; [lia|]. by exists (x :: s).
    + intros Hrec. apply IH in Hrec as [Hpos Hmatch]. split; [lia|done].
Qed.

Lemma search_from_bounds (p : pattern) (s : str) (pos : nat) (mo : match_object) :
  search_from p pos s = Some mo ->
  (pos <= m_start mo)%nat /\ (m_start mo <= m_end mo)%nat.
Proof.
  intros Hsearch. apply search_from_sound in Hsearch as [Hpos [s' Hm]].
  split; [done|]. by apply match_here_advances in Hm.
Qed.

(** [finditer] has rounds enough: more rounds find the same matches. *)
Lemma finditer_from_stable (p : pattern) (text : str) (rounds : nat) :
  forall pos,
    (S (length text) - pos <= rounds)%nat ->
    finditer_from (S rounds) p text pos = finditer_from rounds p text pos.
Proof.
  induction rounds as [|rounds IH]; intros pos Hrounds.
  - simpl. destruct (Nat.ltb_spec (length text) pos); [done|lia].
  - change (finditer_from (S (S rounds)) p text pos)
      with (if Nat.ltb (length text) pos then []
            else match search_from p pos (drop pos text) with
                 | None => []
                 | Some mo =>
                     mo :: finditer_from (S rounds) p text
                             (if Nat.eqb (m_end mo) (m_start mo)
                              then S (m_end mo) else m_end mo)
                 end).
    change (finditer_from (S rounds) p text pos)
      with (if Nat.ltb (length text) pos then []
            else match search_from p pos (drop pos text) with
                 | None => []
                 | Some mo =>
                     mo :: finditer_from rounds p text
                             (if Nat.eqb (m_end mo) (m_start mo)
                              then S (m_end mo) else m_end mo)
                 end).
    destruct (Nat.ltb (length text) pos); [done|].
    destruct (search_from p pos (drop pos text)) as [mo|] eqn:Hsearch; [|done].
    apply search_from_bounds in Hsearch as [Hstart Hend].
    f_equal. apply IH.
    destruct (Nat.eqb_spec (m_end mo) (m_start mo)); lia.
Qed.

(** Every match of [finditer] is a match of the pattern at the place
    it starts. *)
Lemma finditer_from_sound (p : pattern) (text : str) (rounds : nat) :
  forall pos mo,
    mo ∈ finditer_from rounds p text pos ->
    exists s', match_here p (m_start mo) s' [] = Some (m_end mo, m_marks mo).
Proof.
  induction rounds as [|rounds IH]; intros pos mo; simpl.
  - by intros ?%elem_of_nil.
  - destruct (Nat.ltb (length text) pos); [by intros ?%elem_of_nil|].
    destruct (search_from p pos (drop pos text)) as [mo'|] eqn:Hsearch;
      [|by intros ?%elem_of_nil].
    intros [->|Hin]%elem_of_cons.
    + by apply search_from_sound in Hsearch as [_ Hm].
    + by eapply IH.
Qed.

Lemma finditer_enough (p : pattern) (text : str) (extra : nat) :
  finditer_from (extra + S (length text)) p text 0 = finditer p text.
Proof.
  induction extra as [|extra IH]; [done|].
  rewrite <- IH. apply finditer_from_stable. lia.
Qed.

End ReFacts.

(** * Properties *)

(** ** Strings *)

Section StringFacts.
Import PyStr.






End StringFacts.

Section LowerFacts.
Context {U : Unicode}.



End LowerFacts.

(** ** The filter *)

Section FilterFacts.
Context {U : Unicode}.
Import PyStr.





End FilterFacts.






(** ** Extraction *)

Section ExtractionFacts.
Context {B : Bs4} {J : Json}.
Import PyStr.

Lemma _text_or_none_nonempty (element : option Tag) (t : str) :
  _text_or_none element = Some t -> t <> [].
Proof.
  destruct element as [e|]; simpl; [|done].
  destruct (get_text e true) as [|c s]; simpl; [done|].
  by intros [= <-].
Qed.

Lemma card_title_nonempty (li : Tag) (t : str) :
  card_title li = Some t -> t <> [].
Proof. apply _text_or_none_nonempty. Qed.

(** What [_parse_json_metadata] returns or raises: [None] without an
    attribute, and otherwise what [json.loads] returns or raises, but
    for [JSONDecodeError], which gives [None]. *)
Lemma _parse_json_metadata_outcome (li : Tag) :
  _parse_json_metadata li =
    match metadata_raw li with
    | Some (c :: s) =>
        match json_loads (c :: s) with
        | Ok v => Ok v
        | Raise JSONDecodeError => Ok JNull
        | Raise e => Raise e
        end
    | _ => Ok JNull
    end.
Proof.
  unfold _parse_json_metadata.
  destruct (metadata_raw li) as [[|c s]|]; [done| |done].
  by destruct (json_loads (c :: s)) as [v|[]].
Qed.

Lemma _parse_json_metadata_undecodable (li : Tag) (raw : str) :
  metadata_raw li = Some raw -> json_loads raw = Raise JSONDecodeError ->
  _parse_json_metadata li = Ok JNull.
Proof.
  intros Hraw Hloads. unfold _parse_json_metadata. rewrite Hraw.
  destruct raw as [|c s]; [done|]. by rewrite Hloads.
Qed.

(** An exception of [json.loads] that is not a [JSONDecodeError] is not
    caught. *)
Lemma _parse_json_metadata_other_exception (li : Tag) (raw : str) (e : failure) :
  metadata_raw li = Some raw -> raw <> [] ->
  json_loads raw = Raise e -> e <> JSONDecodeError ->
  _parse_json_metadata li = Raise e.
Proof.
  intros Hraw Hne Hloads He. rewrite _parse_json_metadata_outcome, Hraw.
  destruct raw as [|c s]; [done|]. rewrite Hloads. by destruct e.
Qed.

Lemma card_undecodable (li : Tag) (raw t : str) :
  metadata_raw li = Some raw -> json_loads raw = Raise JSONDecodeError ->
  card_title li = Some t ->
  card li = Ok (Some (Obj.mkProduct t (card_price li) JNull)).
Proof.
  intros Hraw Hloads Ht. unfold card, card_category.
  rewrite (_parse_json_metadata_undecodable li raw Hraw Hloads), Ht. simpl.
  destruct t as [|c t]; [|done].
  by apply card_title_nonempty in Ht.
Qed.

(** Metadata that decodes to a truthy value other than an object has
    no [get]: the exception leaves the loop, and the extractor. *)
Lemma card_not_object (li : Tag) (raw : str) (v : json) :
  metadata_raw li = Some raw -> raw <> [] -> json_loads raw = Ok v ->
  PyVal.truthy v = true -> (forall fields, v <> JObj fields) ->
  card li = Raise AttributeError.
Proof.
  intros Hraw Hne Hloads Htruthy Hobj.
  unfold card, card_category, _parse_json_metadata. rewrite Hraw.
  destruct raw as [|c s]; [done|]. rewrite Hloads. simpl. rewrite Htruthy.
  destruct v; try done. by destruct (Hobj fields).
Qed.

(** What [cards_loop] returns holds the products it started with and
    the product of every candidate that has one. *)
Lemma cards_loop_elem_of (cards : list Tag) :
  forall (acc products : list Obj.Product),
    cards_loop cards acc = Ok products ->
    (forall p, p ∈ acc -> p ∈ products)
    /\ (forall li p, li ∈ cards -> card li = Ok (Some p) -> p ∈ products).
Proof.
  induction cards as [|li0 cards IH]; intros acc products Hloop.
  - simpl in Hloop. injection Hloop as <-. split; [done|].
    intros li p Hli. by apply elem_of_nil in Hli.
  - simpl in Hloop. destruct (card li0) as [[p0|]|e] eqn:Hcard; simpl in Hloop;
      [| |done].
    + destruct (IH _ _ Hloop) as [Hacc Hcands]. split.
      * intros p Hp. apply Hacc, elem_of_app. by left.
      * intros li p [->|Hli]%elem_of_cons Hp.
        -- rewrite Hcard in Hp. injection Hp as ->.
           apply Hacc, elem_of_app. right. by apply list_elem_of_singleton.
        -- by eapply Hcands.
    + destruct (IH _ _ Hloop) as [Hacc Hcands]. split; [done|].
      intros li p [->|Hli]%elem_of_cons Hp.
      * by rewrite Hcard in Hp.
      * by eapply Hcands.
Qed.

Lemma card_product_title (li : Tag) (p : Obj.Product) :
  card li = Ok (Some p) -> Obj.title p <> [].
Proof.
  unfold card. destruct (card_category li) as [v|e]; simpl; [|done].
  destruct (card_title li) as [[|c t]|]; [done| |done].
  by intros [= <-].
Qed.

Lemma cards_loop_titles (cards : list Tag) :
  forall (acc products : list Obj.Product),
    Forall (fun p => Obj.title p <> []) acc ->
    cards_loop cards acc = Ok products ->
    Forall (fun p => Obj.title p <> []) products.
Proof.
  induction cards as [|li cards IH]; intros acc products Hacc Hloop.
  - simpl in Hloop. by injection Hloop as <-.
  - simpl in Hloop. destruct (card li) as [[p|]|e] eqn:Hcard; simpl in Hloop;
      [| |done].
    + eapply IH; [|done]. apply Forall_app. split; [done|].
      apply Forall_singleton. by eapply card_product_title.
    + by eapply IH.
Qed.

(** A match of the script pattern is never empty: it starts with a
    brace. *)
Lemma script_match_nonempty (text : str) (mo : Re.match_object) :
  mo ∈ Re.finditer script_pattern text ->
  (Re.m_start mo < Re.m_end mo)%nat.
Proof.
  intros [s' Hm]%finditer_from_sound.
  exact (step_advances (Re.Chr (Re.ch "{")) (Re.match_here (tail script_pattern))
           (match_here_advances _) _ _ _ _ _ Hm).
Qed.

(** The card extractor only returns listings with a title. *)
Lemma _extract_from_cards_titles (soup : Tag) (products : list Obj.Product) :
  _extract_from_cards soup = Ok products ->
  Forall (fun p => Obj.title p <> []) products.
Proof. apply cards_loop_titles. constructor. Qed.

End ExtractionFacts.

(** C5: [extract_products] returns what the card extractor returns when
    that is not empty, and what the script extractor returns when the
    card extractor returns no listing; an exception of the card extractor
    is the exception of [extract_products]. *)
Theorem extract_products_fallback {B : Bs4} {J : Json} (html : str) :
  let soup := BeautifulSoup html in
  (forall p ps, _extract_from_cards soup = Ok (p :: ps) ->
                extract_products html = Ok (p :: ps))
  /\ (_extract_from_cards soup = Ok [] ->
      extract_products html = Ok (_extract_from_scripts soup))
  /\ (forall e, _extract_from_cards soup = Raise e ->
                extract_products html = Raise e).
Proof.
  unfold extract_products. cbv zeta.
  repeat split; intros; by match goal with Heq : _ = _ |- _ => rewrite Heq end.
Qed.

(** C6, as the script has it: when decoding the metadata attribute of a
    candidate raises [JSONDecodeError], [_parse_json_metadata] returns
    [None], the category is absent, and the candidate, if it has a
    title, is appended as a listing with [category = None]. *)
Theorem undecodable_metadata_is_absent_category {B : Bs4} {J : Json} (li : Tag)
    (raw : str) :
  metadata_raw li = Some raw -> json_loads raw = Raise JSONDecodeError ->
  _parse_json_metadata li = Ok JNull
  /\ card_category li = Ok JNull
  /\ (forall t, card_title li = Some t ->
        card li = Ok (Some (Obj.mkProduct t (card_price li) JNull)))
  /\ (forall soup products t,
        li ∈ candidates soup ->
        _extract_from_cards soup = Ok products ->
        card_title li = Some t ->
        Obj.mkProduct t (card_price li) JNull ∈ products).
Proof.
  intros Hraw Hloads.
  pose proof (_parse_json_metadata_undecodable li raw Hraw Hloads) as Hmeta.
  split; [done|]. split.
  { unfold card_category. by rewrite Hmeta. }
  split.
  { intros t. by apply (card_undecodable li raw). }
  intros soup products t Hli Hcards Ht.
  destruct (cards_loop_elem_of _ _ _ Hcards) as [_ Hin].
  apply (Hin li); [done|]. by apply (card_undecodable li raw).
Qed.

(** ** The run *)

Section IoFacts.

Lemma bind_lift_ok {A B} (a : A) (k : A -> io B) :
  (x ← lift (Ok a); k x) = k a.
Proof. unfold mbind, io_bind, lift. by destruct (k a). Qed.

Lemma bind_lift_raise {A B} (e : failure) (k : A -> io B) :
  (x ← lift (Raise e); k x) = ([], Raise e).
Proof. done. Qed.

Lemma bind_ret {B} (k : unit -> io B) : (x ← mret tt; k x) = k tt.
Proof. unfold mbind, io_bind, mret, io_ret. by destruct (k tt). Qed.

Lemma bind_event {B} (ev : event) (k : unit -> io B) :
  (x ← ([ev], Ok tt); k x) = (ev :: fst (k tt), snd (k tt)).
Proof. unfold mbind, io_bind. by destruct (k tt). Qed.

End IoFacts.

Section MainFacts.
Context {U : Unicode} {P : Builtins} {B : Bs4} {J : Json} {W : World}.
Import PyStr.

Lemma slice_to_nonneg {A} (l : list A) (n : Z) :
  (0 <= n)%Z -> slice_to l n = take (Z.to_nat n) l.
Proof.
  intros Hn. unfold slice_to.
  by destruct (Z.ltb_spec n 0); [lia|].
Qed.

Lemma apply_limit_nil {A} (limit : option Z) : apply_limit limit (@nil A) = [].
Proof.
  destruct limit as [n|]; [|done]. simpl. unfold slice_to.
  by destruct (n <? 0)%Z; rewrite take_nil.
Qed.

(** A run of [main] whose download, extraction and filter succeed. *)
Lemma main_run (args : Namespace) (html : str)
    (products filtered : list Obj.Product) :
  fetch_html (url args) 15 = Ok html ->
  extract_products html = Ok products ->
  Obj.filter_products products (keyword args) = Ok filtered ->
  let shown := apply_limit (limit args) filtered in
  main args =
    match csv_path args with
    | Some path =>
        if can_open path
        then (CsvWritten path (csv_header :: map Obj.csv_row shown)
                :: printed args shown, Ok tt)
        else ([], Raise OSError)
    | None => (printed args shown, Ok tt)
    end.
Proof.
  intros Hfetch Hextract Hfilter shown. unfold main.
  rewrite Hfetch, bind_lift_ok, Hextract, bind_lift_ok, Hfilter, bind_lift_ok.
  fold shown. unfold printed.
  destruct (csv_path args) as [path|].
  - unfold write_csv. destruct (can_open path); [|done].
    rewrite bind_event.
    destruct shown as [|p shown']; [done|].
    by destruct (as_json args); unfold print; rewrite bind_event.
  - rewrite bind_ret.
    destruct shown as [|p shown']; [done|].
    by destruct (as_json args); unfold print; rewrite bind_event.
Qed.

(** On instances with the declared types, the functions at run time
    are the functions on products. *)
Lemma matches_keyword_instance (p : Product) (k : str) :
  Obj.matches_keyword (instance_of p) k = Ok (matches_keyword p k).
Proof.
  unfold Obj.matches_keyword, matches_keyword, instance_of. simpl.
  by destruct (category p) as [[|c s]|], (title p) as [|c' t].
Qed.

Lemma filter_products_instances (L : list Product) (k : str) :
  Obj.filter_products (map instance_of L) k
  = Ok (map instance_of (filter_products L k)).
Proof.
  unfold filter_products.
  induction L as [|p L IH]; simpl; [done|].
  rewrite matches_keyword_instance, IH. simpl.
  by destruct (matches_keyword p k).
Qed.

Lemma format_line_instance (p : Product) :
  Obj.format_line (instance_of p) = format_line p.
Proof.
  unfold Obj.format_line, format_line, instance_of. simpl.
  by destruct (category p) as [[|c s]|].
Qed.

Lemma format_products_instances (L : list Product) :
  Obj.format_products (map instance_of L) = format_products L.
Proof.
  unfold Obj.format_products, format_products. f_equal.
  rewrite map_map. apply map_ext. intros p. apply format_line_instance.
Qed.

(** What the filter lets through has a category that [join] accepts:
    a string, or a falsy value. *)
Lemma matches_keyword_ok (p : Obj.Product) (k : str) (keep : bool) :
  Obj.matches_keyword p k = Ok keep ->
  PyVal.truthy (Obj.category p) = false \/ exists s, Obj.category p = JStr s.
Proof.
  unfold Obj.matches_keyword. simpl.
  destruct (PyVal.truthy (Obj.category p)) eqn:Htruthy; [|by left].
  destruct (Obj.category p); try done. intros _. right. by eexists.
Qed.

Lemma filter_products_elem_of (products : list Obj.Product) (k : str) :
  forall filtered,
    Obj.filter_products products k = Ok filtered ->
    forall p, p ∈ filtered <-> p ∈ products /\ Obj.matches_keyword p k = Ok true.
Proof.
  induction products as [|p0 products IH]; intros filtered; simpl.
  - intros [= <-] p. split; [by intros ?%elem_of_nil|by intros [?%elem_of_nil _]].
  - destruct (Obj.matches_keyword p0 k) as [keep|e] eqn:Hkeep; simpl; [|done].
    destruct (Obj.filter_products products k) as [kept|e]; simpl; [|done].
    intros [= <-] p. specialize (IH kept eq_refl p).
    destruct keep.
    + rewrite !elem_of_cons, IH. split.
      * intros [->|[Hin Hp]]; [by split; [left|]|by split; [right|]].
      * intros [[->|Hin] Hp]; [by left|by right].
    + rewrite elem_of_cons, IH. split.
      * intros [Hin Hp]. by split; [right|].
      * intros [[->|Hin] Hp]; [by rewrite Hkeep in Hp|done].
Qed.

End MainFacts.

(** C1, as the script has it: when no listing passes the filter, the
    only line printed is ["No matching products found."]; a CSV file
    that was asked for is written all the same, with the header row
    alone, before the message (and a file that cannot be opened ends
    the run before anything is printed). *)
Theorem nothing_matches_message
    {U : Unicode} {P : Builtins} {B : Bs4} {J : Json} {W : World}
    (args : Namespace) (html : str) (products : list Obj.Product) :
  fetch_html (url args) 15 = Ok html ->
  extract_products html = Ok products ->
  Obj.filter_products products (keyword args) = Ok [] ->
  main args =
    match csv_path args with
    | None => ([Print (PyStr.lit "No matching products found.")], Ok tt)
    | Some path =>
        if can_open path
        then ([CsvWritten path [csv_header];
               Print (PyStr.lit "No matching products found.")], Ok tt)
        else ([], Raise OSError)
    end.
Proof.
  intros Hfetch Hextract Hnone.
  rewrite (main_run args html products [] Hfetch Hextract Hnone).
  cbv zeta. by rewrite apply_limit_nil.
Qed.

(** C4, for a limit that is not negative: the limit step keeps
    [min(n, len(filtered))] listings, the first ones in their order, and
    the CSV rows, the JSON document and the text are all made from the
    listings it kept. *)
Theorem limit_keeps_first_listings
    {U : Unicode} {P : Builtins} {B : Bs4} {J : Json} {W : World}
    (args : Namespace) (n : Z) (html : str) (products filtered : list Obj.Product) :
  limit args = Some n ->
  (0 <= n)%Z ->
  fetch_html (url args) 15 = Ok html ->
  extract_products html = Ok products ->
  Obj.filter_products products (keyword args) = Ok filtered ->
  (forall path, csv_path args = Some path -> can_open path = true) ->
  let shown := apply_limit (limit args) filtered in
  Z.of_nat (length shown) = Z.min n (Z.of_nat (length filtered))
  /\ shown `prefix_of` filtered
  /\ (forall path, csv_path args = Some path ->
        CsvWritten path (csv_header :: map Obj.csv_row shown) ∈ fst (main args))
  /\ (shown <> [] -> as_json args = true ->
        Print (json_dumps (JArr (map Obj.product_dict shown))) ∈ fst (main args))
  /\ (shown <> [] -> as_json args = false ->
        Print (Obj.format_products shown) ∈ fst (main args)).
Proof.
  intros Hlimit Hn Hfetch Hextract Hfilter Hopen shown.
  pose proof (main_run args html products filtered Hfetch Hextract Hfilter) as Hrun.
  cbv zeta in Hrun. fold shown in Hrun.
  assert (shown = take (Z.to_nat n) filtered) as Hshown.
  { unfold shown. rewrite Hlimit. simpl. by apply slice_to_nonneg. }
  split; [rewrite Hshown, length_take; lia|].
  split; [rewrite Hshown; apply prefix_take|].
  rewrite Hrun. clear Hrun.
  split; [|split].
  - intros path Hpath. rewrite Hpath, (Hopen path Hpath). simpl. left.
  - intros Hsome Hjson.
    assert (Print (json_dumps (JArr (map Obj.product_dict shown))) ∈ printed args shown)
      as Hin.
    { unfold printed. rewrite Hjson. destruct shown; [done|]. left. }
    destruct (csv_path args) as [path|]; [|done].
    rewrite (Hopen path eq_refl). simpl. by right.
  - intros Hsome Htext.
    assert (Print (Obj.format_products shown) ∈ printed args shown) as Hin.
    { unfold printed. rewrite Htext. destruct shown; [done|]. left. }
    destruct (csv_path args) as [path|]; [|done].
    rewrite (Hopen path eq_refl). simpl. by right.
Qed.

(** The object and the row of a listing whose category is a string or
    [None] are the same record. *)
Lemma product_dict_csv_row {P : Builtins} (product : Obj.Product) :
  declared_category product ->
  same_record (Obj.product_dict product) (Obj.csv_row product).
Proof.
  intros Hdeclared. destruct product as [t p c]. unfold declared_category in Hdeclared.
  simpl in Hdeclared.
  exists t, (PyVal.of_option p), c, (PyStr.or_empty p),
    (if PyVal.truthy c then Obj.text_of c else []).
  split; [done|]. split; [done|]. split.
  - destruct p; constructor.
  - destruct Hdeclared as [->|[s ->]]; [constructor|].
    destruct s; constructor.
Qed.

Lemma product_dicts_csv_rows {P : Builtins} (shown : list Obj.Product) :
  Forall declared_category shown ->
  Forall2 same_record (map Obj.product_dict shown) (map Obj.csv_row shown).
Proof.
  induction 1 as [|product rest Hproduct _ IH]; simpl; constructor; [|done].
  by apply product_dict_csv_row.
Qed.

(** C8, as the script has it: a run that prints JSON and writes a CSV
    file makes both from the same listings, one object and one row per
    listing, in the same order; for every listing whose category is a
    string or [None], the object has the three fields [title], [price]
    and [category], the row has the same three strings, and a missing
    price or category is [null] in the object and the empty string in
    the row. *)
Theorem json_and_csv_same_records
    {U : Unicode} {P : Builtins} {B : Bs4} {J : Json} {W : World}
    (args : Namespace) (html : str) (products filtered : list Obj.Product)
    (path : str) :
  fetch_html (url args) 15 = Ok html ->
  extract_products html = Ok products ->
  Obj.filter_products products (keyword args) = Ok filtered ->
  as_json args = true ->
  csv_path args = Some path ->
  can_open path = true ->
  let shown := apply_limit (limit args) filtered in
  shown <> [] ->
  exists (objs : list json) (rows : list (list str)),
    main args =
      ([CsvWritten path (csv_header :: rows);
        Print (json_dumps (JArr objs));
        Print (PyStr.lit "Saved " ++ PyStr.of_nat (length shown)
               ++ PyStr.lit " products to " ++ path)], Ok tt)
    /\ objs = map Obj.product_dict shown
    /\ rows = map Obj.csv_row shown
    /\ (forall product, product ∈ shown -> declared_category product ->
          same_record (Obj.product_dict product) (Obj.csv_row product))
    /\ (Forall declared_category shown -> Forall2 same_record objs rows).
Proof.
  intros Hfetch Hextract Hfilter Hjson Hpath Hopen shown Hsome.
  exists (map Obj.product_dict shown), (map Obj.csv_row shown).
  split; [|split; [done|split; [done|split]]].
  - rewrite (main_run args html products filtered Hfetch Hextract Hfilter).
    cbv zeta. fold shown. rewrite Hpath, Hopen. unfold printed.
    rewrite Hjson, Hpath. by destruct shown.
  - intros product _. apply product_dict_csv_row.
  - apply product_dicts_csv_rows.
Qed.

(** ** The script at work *)

Section Runs.
Import PyStr Examples.

Lemma card_page_products :
  extract_products (B := card_soup) (J := no_json) card_page_source
  = Ok (map instance_of [phone_a; tablet_b]).
Proof. vm_compute. reflexivity. Qed.

End Runs.

(** C7 fails on the script extractor.  The page holds one inline script,
    [var goods = {goodsName:"Phone A",price:"9,999"};], and no card.  The
    lazy group of the pattern stops at once, the name is swallowed by the
    class that follows it, and the listing returned has an empty
    title. *)
Theorem script_extractor_empty_title :
  extract_products (B := Examples.script_soup) (J := Examples.no_json)
    Examples.script_page_source
  = Ok [Obj.mkProduct [] (Some (PyStr.lit "9,999")) JNull].
Proof. vm_compute. reflexivity. Qed.

(** C1 fails when a CSV file is asked for: no listing of the page passes
    the keyword [zzz], and the file [out.csv] is written, with its header
    row, before the message is printed. *)
Lemma csv_written_when_nothing_matches :
  filter_products (U := Dom.ascii_tables) [Examples.phone_a; Examples.tablet_b]
    (keyword Examples.nothing_matches) = []
  /\ main (U := Dom.ascii_tables) (P := Dom.builtins) (B := Examples.card_soup)
       (J := Examples.no_json) (W := Examples.card_site) Examples.nothing_matches
     = ([CsvWritten (PyStr.lit "out.csv") [csv_header];
         Print (PyStr.lit "No matching products found.")], Ok tt).
Proof. split; vm_compute; reflexivity. Qed.

(** C6 fails on metadata that is JSON but not an object: the second card
    of the page has [data-ec="[1]"], [meta.get] raises [AttributeError]
    on the list it decodes to, and the extraction ends there. *)
Lemma non_object_metadata_raises :
  _parse_json_metadata (B := MoreExamples.array_soup) (J := MoreExamples.decoder)
    MoreExamples.array_card = Ok (JArr [JInt 1])
  /\ card (B := MoreExamples.array_soup) (J := MoreExamples.decoder)
       MoreExamples.array_card = Raise AttributeError
  /\ extract_products (B := MoreExamples.array_soup) (J := MoreExamples.decoder)
       MoreExamples.array_page_source = Raise AttributeError.
Proof. repeat split; vm_compute; reflexivity. Qed.

(** C8 fails on a category that is not a string: the card of the page
    has [data-ec='{"cateLevel1Name": 0}'], the listing passes the keyword
    [T], and its category is the number [0] in the JSON output and the
    empty string in the CSV file. *)
Lemma number_category_differs :
  main (U := Dom.ascii_tables) (P := Dom.builtins) (B := MoreExamples.zero_soup)
    (J := MoreExamples.decoder) (W := MoreExamples.zero_site)
    MoreExamples.tablets_json_and_csv
  = ([CsvWritten (PyStr.lit "out.csv")
        [csv_header; [PyStr.lit "Tablet T"; []; []]];
      Print (json_dumps (Json := MoreExamples.decoder)
               (JArr [JObj [(PyStr.lit "title", JStr (PyStr.lit "Tablet T"));
                            (PyStr.lit "price", JNull);
                            (PyStr.lit "category", JInt 0)]]));
      Print (PyStr.lit "Saved 1 products to out.csv")], Ok tt)
  /\ ~ same_record
        (JObj [(PyStr.lit "title", JStr (PyStr.lit "Tablet T"));
               (PyStr.lit "price", JNull);
               (PyStr.lit "category", JInt 0)])
        [PyStr.lit "Tablet T"; []; []].
Proof.
  split; [vm_compute; reflexivity|].
  intros (t & p & c & p_cell & c_cell & Hobj & Hrow & Hp & Hc).
  injection Hobj as _ _ <-. inversion Hc.
Qed.

(** C4 fails for a negative limit: [filtered[:-1]] drops the last
    listing, so one listing of two is kept, and [min(-1, 2)] is [-1]. *)
Lemma negative_limit_drops_last :
  apply_limit (Some (-1)%Z) [Examples.phone_a; Examples.tablet_b] = [Examples.phone_a]
  /\ Z.of_nat (length (apply_limit (Some (-1)%Z) [Examples.phone_a; Examples.tablet_b]))
     <> Z.min (-1) (Z.of_nat (length [Examples.phone_a; Examples.tablet_b])).
Proof. split; [reflexivity|]. vm_compute. discriminate. Qed.

(** ** Instances of the theorems *)

Section Witnesses.
Import PyStr Examples.



Lemma extract_products_fallback_witness :
  _extract_from_cards (B := script_soup) (J := no_json)
    (BeautifulSoup (Bs4 := script_soup) script_page_source) = Ok []
  /\ extract_products (B := script_soup) (J := no_json) script_page_source
     = Ok (_extract_from_scripts (B := script_soup)
             (BeautifulSoup (Bs4 := script_soup) script_page_source)).
Proof.
  assert (_extract_from_cards (B := script_soup) (J := no_json)
            (BeautifulSoup (Bs4 := script_soup) script_page_source) = Ok [])
    as Hcards by (vm_compute; reflexivity).
  split; [exact Hcards|].
  exact (proj1 (proj2 (extract_products_fallback (B := script_soup) (J := no_json)
                         script_page_source)) Hcards).
Defined.

Lemma undecodable_metadata_is_absent_category_witness :
  metadata_raw (B := card_soup) first_card = Some (lit "{bad")
  /\ json_loads (Json := no_json) (lit "{bad") = Raise JSONDecodeError
  /\ card (B := card_soup) (J := no_json) first_card
     = Ok (Some (Obj.mkProduct (lit "Phone A")
                   (card_price (B := card_soup) first_card) JNull)).
Proof.
  assert (metadata_raw (B := card_soup) first_card = Some (lit "{bad"))
    as Hraw by (vm_compute; reflexivity).
  assert (json_loads (Json := no_json) (lit "{bad") = Raise JSONDecodeError)
    as Hloads by (vm_compute; reflexivity).
  assert (card_title (B := card_soup) first_card = Some (lit "Phone A"))
    as Htitle by (vm_compute; reflexivity).
  split; [exact Hraw|]. split; [exact Hloads|].
  exact (proj1 (proj2 (proj2
           (undecodable_metadata_is_absent_category
              (B := card_soup) (J := no_json) first_card
              (lit "{bad") Hraw Hloads)))
           (lit "Phone A") Htitle).
Defined.

Lemma nothing_matches_message_witness :
  Obj.filter_products (U := Dom.ascii_tables) (map instance_of [phone_a; tablet_b])
    (keyword nothing_matches) = Ok []
  /\ main (U := Dom.ascii_tables) (P := Dom.builtins) (B := card_soup) (J := no_json)
       (W := card_site) nothing_matches
     = ([CsvWritten (lit "out.csv") [csv_header];
         Print (lit "No matching products found.")], Ok tt).
Proof.
  assert (Obj.filter_products (U := Dom.ascii_tables)
            (map instance_of [phone_a; tablet_b]) (keyword nothing_matches) = Ok [])
    as Hnone by (vm_compute; reflexivity).
  assert (extract_products (B := card_soup) (J := no_json) card_page_source
          = Ok (map instance_of [phone_a; tablet_b]))
    as Hextract by (vm_compute; reflexivity).
  split; [exact Hnone|].
  exact (nothing_matches_message (U := Dom.ascii_tables) (P := Dom.builtins)
           (B := card_soup) (J := no_json) (W := card_site) nothing_matches
           card_page_source (map instance_of [phone_a; tablet_b])
           eq_refl Hextract Hnone).
Defined.

Lemma limit_keeps_first_listings_witness :
  (0 <= 1)%Z
  /\ Print (Obj.format_products (P := Dom.builtins) [instance_of phone_a])
     ∈ fst (main (U := Dom.ascii_tables) (P := Dom.builtins) (B := card_soup)
              (J := no_json) (W := card_site) first_match).
Proof.
  assert (0 <= 1)%Z as Hn by lia.
  assert (extract_products (B := card_soup) (J := no_json) card_page_source
          = Ok (map instance_of [phone_a; tablet_b]))
    as Hextract by (vm_compute; reflexivity).
  assert (Obj.filter_products (U := Dom.ascii_tables)
            (map instance_of [phone_a; tablet_b]) (keyword first_match)
          = Ok (map instance_of [phone_a; tablet_b]))
    as Hfilter by (vm_compute; reflexivity).
  assert (forall path, csv_path first_match = Some path ->
                       can_open (World := card_site) path = true)
    as Hopen by (intros path Hpath; discriminate Hpath).
  split; [exact Hn|].
  refine (proj2 (proj2 (proj2 (proj2
            (limit_keeps_first_listings (U := Dom.ascii_tables) (P := Dom.builtins)
               (B := card_soup) (J := no_json) (W := card_site) first_match 1
               card_page_source (map instance_of [phone_a; tablet_b])
               (map instance_of [phone_a; tablet_b])
               eq_refl Hn eq_refl Hextract Hfilter Hopen)))) _ eq_refl).
  vm_compute. discriminate.
Defined.

Lemma json_and_csv_same_records_witness :
  exists (objs : list json) (rows : list (list str)),
    fst (main (U := Dom.ascii_tables) (P := Dom.builtins) (B := card_soup)
           (J := no_json) (W := card_site) json_and_csv)
    = [CsvWritten (lit "out.csv") (csv_header :: rows);
       Print (json_dumps (Json := no_json) (JArr objs));
       Print (lit "Saved 2 products to out.csv")]
    /\ Forall2 same_record objs rows.
Proof.
  assert (extract_products (B := card_soup) (J := no_json) card_page_source
          = Ok (map instance_of [phone_a; tablet_b]))
    as Hextract by (vm_compute; reflexivity).
  assert (Obj.filter_products (U := Dom.ascii_tables)
            (map instance_of [phone_a; tablet_b]) (keyword json_and_csv)
          = Ok (map instance_of [phone_a; tablet_b]))
    as Hfilter by (vm_compute; reflexivity).
  assert (apply_limit (limit json_and_csv) (map instance_of [phone_a; tablet_b]) <> [])
    as Hsome by (vm_compute; discriminate).
  assert (Forall declared_category
            (apply_limit (limit json_and_csv) (map instance_of [phone_a; tablet_b])))
    as Hdeclared by (repeat constructor).
  destruct (json_and_csv_same_records (U := Dom.ascii_tables) (P := Dom.builtins)
              (B := card_soup) (J := no_json) (W := card_site) json_and_csv
              card_page_source (map instance_of [phone_a; tablet_b])
              (map instance_of [phone_a; tablet_b]) (lit "out.csv")
              eq_refl Hextract Hfilter eq_refl eq_refl eq_refl Hsome)
    as (objs & rows & Hmain & _ & _ & _ & Hsame).
  exists objs, rows. split; [|exact (Hsame Hdeclared)].
  rewrite Hmain. reflexivity.
Defined.

End Witnesses.

(** * Further properties *)

(** ** The matcher finds matches *)

Section ReSound.
Import Re ReSpec.

Lemma step_split (c : cclass) (k : cont) pos s m r :
  step c k pos s m = Some r ->
  exists x rest, s = x :: rest /\ accepts c x = true /\ k (S pos) rest m = Some r.
Proof.
  unfold step. destruct s as [|x s]; [done|].
  destruct (accepts c x) eqn:Hx; [|done]. intros Hk. by exists x, s.
Qed.

Lemma star_greedy_split (c : cclass) (k : cont) s :
  forall pos m r,
    star_greedy c k pos s m = Some r ->
    exists chars rest,
      s = chars ++ rest /\ Forall (fun x => accepts c x = true) chars
      /\ k (pos + length chars)%nat rest m = Some r.
Proof.
  assert (forall pos m r, k pos s m = Some r ->
            exists chars rest,
              s = chars ++ rest /\ Forall (fun x => accepts c x = true) chars
              /\ k (pos + length chars)%nat rest m = Some r) as Hstop.
  { intros pos m r Hk. exists [], s. simpl. by rewrite Nat.add_0_r. }
  induction s as [|x s IH]; intros pos m r; simpl; [apply Hstop|].
  destruct (accepts c x) eqn:Hx; [|apply Hstop].
  destruct (star_greedy c k (S pos) s m) as [r1|] eqn:Hrec; [|apply Hstop].
  intros [= <-].
  apply IH in Hrec as (chars & rest & -> & Hall & Hk).
  - exists (x :: chars), rest. simpl.
    split; [done|]. split; [by constructor|].
    by replace (pos + S (length chars))%nat with (S pos + length chars)%nat by lia.
  - intros pos' m' r' Hk'. exists [], s. simpl. by rewrite Nat.add_0_r.
Qed.

Lemma star_lazy_split (c : cclass) (k : cont) s :
  forall pos m r,
    star_lazy c k pos s m = Some r ->
    exists chars rest,
      s = chars ++ rest /\ Forall (fun x => accepts c x = true) chars
      /\ k (pos + length chars)%nat rest m = Some r.
Proof.
  induction s as [|x s IH]; intros pos m r; simpl.
  - destruct (k pos [] m) as [r1|] eqn:Hnow; [|done].
    intros [= <-]. exists [], []. simpl. by rewrite Nat.add_0_r.
  - destruct (k pos (x :: s) m) as [r1|] eqn:Hnow.
    + intros [= <-]. exists [], (x :: s). simpl. by rewrite Nat.add_0_r.
    + destruct (accepts c x) eqn:Hx; [|done]. intros Hrec.
      apply IH in Hrec as (chars & rest & -> & Hall & Hk).
      exists (x :: chars), rest. simpl.
      split; [done|]. split; [by constructor|].
      by replace (pos + S (length chars))%nat with (S pos + length chars)%nat by lia.
Qed.

(** What [match_here] returns is a match. *)
Lemma match_here_run (p : pattern) :
  forall pos s m e m',
    match_here p pos s m = Some (e, m') -> run p pos s m e m'.
Proof.
  induction p as [|[q c|i] p IH]; intros pos s m e m'; simpl.
  - intros [= <- <-]. constructor.
  - destruct q.
    + intros (x & rest & -> & Hx & Hk)%step_split.
      apply (run_rep Once c p pos [x] rest); [by repeat constructor|done|].
      apply IH. by rewrite Nat.add_1_r.
    + destruct (step c (match_here p) pos s m) as [r|] eqn:Hstep.
      * intros [= ->].
        apply step_split in Hstep as (x & rest & -> & Hx & Hk).
        apply (run_rep Opt c p pos [x] rest); [by repeat constructor|simpl; lia|].
        apply IH. by rewrite Nat.add_1_r.
      * intros Hk. apply (run_rep Opt c p pos [] s); [constructor|simpl; lia|].
        apply IH. by rewrite Nat.add_0_r.
    + intros (chars & rest & -> & Hall & Hk)%star_greedy_split.
      apply run_rep; [done|done|]. by apply IH.
    + intros (chars & rest & -> & Hall & Hk)%star_lazy_split.
      apply run_rep; [done|done|]. by apply IH.
    + intros (x & rest0 & -> & Hx & Hk)%step_split.
      apply star_greedy_split in Hk as (chars & rest & -> & Hall & Hk).
      apply (run_rep Plus c p pos (x :: chars) rest);
        [by constructor|simpl; lia|].
      apply IH. simpl.
      by replace (pos + S (length chars))%nat with (S pos + length chars)%nat by lia.
  - intros Hk. constructor. by apply IH.
Qed.

Lemma drop_split (text chars rest : str) (pos : nat) :
  drop pos text = chars ++ rest ->
  drop (pos + length chars) text = rest.
Proof.
  intros Hdrop. rewrite <- drop_drop, Hdrop. apply drop_app_length.
Qed.

(** A match only adds marks, those of its pattern. *)
Lemma run_marks p pos s m e m' :
  run p pos s m e m' ->
  exists new, m' = new ++ m /\ Forall (fun entry => fst entry ∈ mark_ids p) new.
Proof.
  induction 1 as [pos s m|i p pos s m e m' _ IH|q c p pos chars rest m e m' _ _ _ IH].
  - by exists [].
  - destruct IH as (new & -> & Hnew).
    exists (new ++ [(i, pos)]). rewrite <- app_assoc. split; [done|].
    apply Forall_app. split.
    + eapply Forall_impl; [done|]. intros entry Hin. simpl. by right.
    + apply Forall_singleton. simpl. by left.
  - done.
Qed.

Lemma mark_at_app_fresh (new m : marks) (i : nat) :
  Forall (fun entry => fst entry <> i) new ->
  mark_at (new ++ m) i = mark_at m i.
Proof.
  unfold mark_at. induction 1 as [|[j pos] new Hj _ IH]; simpl; [done|].
  simpl in Hj. by destruct (Nat.eqb_spec j i).
Qed.

Lemma run_keeps_mark p pos s m e m' (i : nat) :
  i ∉ mark_ids p ->
  run p pos s m e m' ->
  mark_at m' i = mark_at m i.
Proof.
  intros Hfresh (new & -> & Hnew)%run_marks.
  apply mark_at_app_fresh.
  eapply Forall_impl; [done|]. intros [j at_pos] Hin Heq. simpl in *. by subst.
Qed.

(** The group around one quantified class holds the characters that
    the class took: they are accepted by the class, and as many as the
    quantifier allows. *)
Lemma run_group (pre post : pattern) (i j : nat) (q : quant) (c : cclass)
    (text : str) :
  i <> j -> i ∉ mark_ids post -> j ∉ mark_ids post ->
  forall pos m e m',
    run (pre ++ Mark i :: Rep q c :: Mark j :: post) pos (drop pos text) m e m' ->
    exists b chars,
      mark_at m' i = Some b
      /\ mark_at m' j = Some (b + length chars)%nat
      /\ take (length chars) (drop b text) = chars
      /\ Forall (fun x => accepts c x = true) chars
      /\ count_ok q (length chars).
Proof.
  intros Hij Hi Hj.
  induction pre as [|[q0 c0|i0] pre IH]; intros pos m e m' Hrun; simpl in Hrun.
  - inversion Hrun as [|? ? ? ? ? ? ? Hrep|]; subst.
    inversion Hrep as [| |? ? ? ? chars rest ? ? ? Hall Hcount Hmark Hq Hpos Htext];
      subst.
    inversion Hmark as [|? ? ? ? ? ? ? Hpost|]; subst.
    exists pos, chars.
    rewrite (run_keeps_mark _ _ _ _ _ _ i Hi Hpost).
    rewrite (run_keeps_mark _ _ _ _ _ _ j Hj Hpost).
    unfold mark_at. simpl. rewrite Nat.eqb_refl.
    destruct (Nat.eqb_spec j i) as [->|_]; [done|]. rewrite Nat.eqb_refl. simpl.
    repeat split; try done.
    rewrite <- Htext. apply take_app_length.
  - inversion Hrun as [| |? ? ? ? chars rest ? ? ? Hall Hcount Hrest Hq Hpos Htext];
      subst.
    apply (IH (pos + length chars)%nat m e m').
    symmetry in Htext. apply drop_split in Htext. by rewrite Htext.
  - inversion Hrun as [|? ? ? ? ? ? ? Hrest|]; subst.
    by apply (IH pos ((i0, pos) :: m) e m').
Qed.

(** A match found by [search_from] is a match of the pattern at the
    place it starts, on the text from there on. *)
Lemma search_from_at (p : pattern) (s : str) :
  forall pos mo,
    search_from p pos s = Some mo ->
    (pos <= m_start mo)%nat
    /\ match_here p (m_start mo) (drop (m_start mo - pos) s) []
       = Some (m_end mo, m_marks mo).
Proof.
  induction s as [|x s IH]; intros pos mo; simpl.
  - destruct (match_here p pos [] []) as [[e m]|] eqn:Hm; [|done].
    intros [= <-]. simpl. split; [lia|]. by rewrite Nat.sub_diag.
  - destruct (match_here p pos (x :: s) []) as [[e m]|] eqn:Hm.
    + intros [= <-]. simpl. split; [lia|]. by rewrite Nat.sub_diag.
    + intros Hrec. apply IH in Hrec as [Hpos Hmatch]. split; [lia|].
      by replace (m_start mo - pos)%nat with (S (m_start mo - S pos)) by lia.
Qed.

Lemma search_from_text (p : pattern) (text : str) (pos : nat) (mo : match_object) :
  search_from p pos (drop pos text) = Some mo ->
  run p (m_start mo) (drop (m_start mo) text) [] (m_end mo) (m_marks mo).
Proof.
  intros [Hpos Hmatch]%search_from_at. apply match_here_run.
  rewrite drop_drop in Hmatch.
  by replace (pos + (m_start mo - pos))%nat with (m_start mo) in Hmatch by lia.
Qed.

Lemma finditer_from_text (p : pattern) (text : str) (rounds : nat) :
  forall pos mo,
    mo ∈ finditer_from rounds p text pos ->
    run p (m_start mo) (drop (m_start mo) text) [] (m_end mo) (m_marks mo).
Proof.
  induction rounds as [|rounds IH]; intros pos mo; simpl.
  - by intros ?%elem_of_nil.
  - destruct (Nat.ltb (length text) pos); [by intros ?%elem_of_nil|].
    destruct (search_from p pos (drop pos text)) as [mo'|] eqn:Hsearch;
      [|by intros ?%elem_of_nil].
    intros [->|Hin]%elem_of_cons.
    + by eapply search_from_text.
    + by eapply IH.
Qed.

(** The text of a group, from what [run_group] tells. *)
Lemma group_of_marks (text : str) (mo : match_object) (g b n : nat) :
  (1 <= g)%nat ->
  mark_at (m_marks mo) (2 * g - 2) = Some b ->
  mark_at (m_marks mo) (2 * g - 1) = Some (b + n)%nat ->
  group text mo g = Some (take n (drop b text)).
Proof.
  intros Hg Hb He. unfold group. rewrite Hb, He.
  by replace (b + n - b)%nat with n by lia.
Qed.

Lemma price_char_accepts (x : N) :
  accepts (OneOf [(ch "0", ch "9"); (ch ",", ch ",")]) x = true -> price_char x.
Proof.
  unfold accepts, in_ranges, price_char. simpl.
  change (ch "0") with 48. change (ch "9") with 57. change (ch ",") with 44.
  rewrite orb_false_r. intros [H1|H2]%orb_true_iff.
  - apply andb_true_iff in H1 as [?%N.leb_le ?%N.leb_le]. by left.
  - apply andb_true_iff in H2 as [?%N.leb_le ?%N.leb_le]. right. lia.
Qed.

End ReSound.

(** ** More on extraction *)

Section ExtractionMore.
Context {B : Bs4} {J : Json}.
Import PyStr ReSpec.

Lemma price_pattern_group (text : str) (mo : Re.match_object) :
  Re.search price_pattern text = Some mo ->
  exists p, Re.group text mo 1 = Some p /\ p <> [] /\ Forall price_char p.
Proof.
  unfold Re.search. intros Hsearch.
  pose proof (search_from_text price_pattern text 0 mo Hsearch) as Hrun.
  change price_pattern
    with ((Re.chars "NT" ++ [Re.Rep Re.Opt (Re.Chr (Re.ch "$")); Re.Rep Re.Star Re.Space])
          ++ Re.Mark 0
             :: Re.Rep Re.Plus (Re.OneOf [(Re.ch "0", Re.ch "9"); (Re.ch ",", Re.ch ",")])
             :: Re.Mark 1 :: []) in Hrun.
  apply run_group in Hrun as (b & chars & Hb & He & Htake & Hall & Hcount);
    [|done|by intros ?%elem_of_nil|by intros ?%elem_of_nil].
  exists chars. split; [|split].
  - rewrite (group_of_marks text mo 1 b (length chars)); [by rewrite Htake|lia|done|done].
  - simpl in Hcount. by destruct chars; [simpl in Hcount; lia|].
  - eapply Forall_impl; [done|]. apply price_char_accepts.
Qed.

Lemma script_pattern_groups (text : str) (mo : Re.match_object) :
  mo ∈ Re.finditer script_pattern text ->
  exists t p,
    Re.group text mo 1 = Some t /\ Forall (fun x => x <> 10) t
    /\ Re.group text mo 2 = Some p /\ p <> [] /\ Forall price_char p.
Proof.
  intros Hrun%finditer_from_text.
  pose proof Hrun as Hrun2.
  change script_pattern
    with (([Re.Rep Re.Once (Re.Chr (Re.ch "{"));
            Re.Rep Re.LazyStar (Re.NoneOf [(Re.ch "}", Re.ch "}")])]
           ++ Re.chars "goodsName"
           ++ [Re.Rep Re.Star Re.Space; Re.Rep Re.Once (Re.Chr (Re.ch ":"));
               Re.Rep Re.Star Re.Space; Re.Rep Re.Opt (Re.Chr 34)])
          ++ Re.Mark 0 :: Re.Rep Re.LazyStar Re.Dot :: Re.Mark 1
             :: ([Re.Rep Re.Opt (Re.Chr 34);
                  Re.Rep Re.LazyStar (Re.NoneOf [(Re.ch "}", Re.ch "}")])]
                 ++ Re.chars "price"
                 ++ [Re.Rep Re.Star Re.Space; Re.Rep Re.Opt (Re.Chr (Re.ch ":"));
                     Re.Rep Re.Star Re.Space; Re.Rep Re.Opt (Re.Chr 34);
                     Re.Mark 2;
                     Re.Rep Re.Plus
                       (Re.OneOf [(Re.ch "0", Re.ch "9"); (Re.ch ",", Re.ch ",")]);
                     Re.Mark 3;
                     Re.Rep Re.Opt (Re.Chr 34);
                     Re.Rep Re.LazyStar (Re.NoneOf [(Re.ch "}", Re.ch "}")]);
                     Re.Rep Re.Once (Re.Chr (Re.ch "}"))])) in Hrun.
  change script_pattern
    with (([Re.Rep Re.Once (Re.Chr (Re.ch "{"));
            Re.Rep Re.LazyStar (Re.NoneOf [(Re.ch "}", Re.ch "}")])]
           ++ Re.chars "goodsName"
           ++ [Re.Rep Re.Star Re.Space; Re.Rep Re.Once (Re.Chr (Re.ch ":"));
               Re.Rep Re.Star Re.Space; Re.Rep Re.Opt (Re.Chr 34);
               Re.Mark 0; Re.Rep Re.LazyStar Re.Dot; Re.Mark 1;
               Re.Rep Re.Opt (Re.Chr 34);
               Re.Rep Re.LazyStar (Re.NoneOf [(Re.ch "}", Re.ch "}")])]
           ++ Re.chars "price"
           ++ [Re.Rep Re.Star Re.Space; Re.Rep Re.Opt (Re.Chr (Re.ch ":"));
               Re.Rep Re.Star Re.Space; Re.Rep Re.Opt (Re.Chr 34)])
          ++ Re.Mark 2
             :: Re.Rep Re.Plus
                  (Re.OneOf [(Re.ch "0", Re.ch "9"); (Re.ch ",", Re.ch ",")])
             :: Re.Mark 3
             :: [Re.Rep Re.Opt (Re.Chr 34);
                 Re.Rep Re.LazyStar (Re.NoneOf [(Re.ch "}", Re.ch "}")]);
                 Re.Rep Re.Once (Re.Chr (Re.ch "}"))]) in Hrun2.
  apply run_group in Hrun as (b1 & t & Hb1 & He1 & Htake1 & Hall1 & _);
    [|done|intros Hin%list_elem_of_In; vm_compute in Hin; intuition discriminate
        |intros Hin%list_elem_of_In; vm_compute in Hin; intuition discriminate].
  apply run_group in Hrun2 as (b2 & p & Hb2 & He2 & Htake2 & Hall2 & Hcount);
    [|done|by intros ?%elem_of_nil|by intros ?%elem_of_nil].
  exists t, p. repeat split.
  - rewrite (group_of_marks text mo 1 b1 (length t)); [by rewrite Htake1|lia|done|done].
  - eapply Forall_impl; [done|]. intros x Hx ->. done.
  - rewrite (group_of_marks text mo 2 b2 (length p)); [by rewrite Htake2|lia|done|done].
  - simpl in Hcount. by destruct p; [simpl in Hcount; lia|].
  - eapply Forall_impl; [done|]. apply price_char_accepts.
Qed.

Lemma scripts_loop_Forall (P : Obj.Product -> Prop) (scripts : list Tag) :
  (forall text mo, mo ∈ Re.finditer script_pattern text -> P (script_product text mo)) ->
  forall acc, Forall P acc -> Forall P (scripts_loop scripts acc).
Proof.
  intros Hmatch. induction scripts as [|script scripts IH]; intros acc Hacc; simpl;
    [done|].
  destruct (or_else (tag_string script) (Some (get_text script false)))
    as [[|c s]|]; try by apply IH.
  apply IH. apply Forall_app. split; [done|].
  apply Forall_forall. intros p (mo & -> & Hmo)%list_elem_of_fmap. by apply Hmatch.
Qed.

Lemma cards_loop_Forall (P : Obj.Product -> Prop) (cards : list Tag) :
  (forall li p, card li = Ok (Some p) -> P p) ->
  forall acc products,
    Forall P acc -> cards_loop cards acc = Ok products -> Forall P products.
Proof.
  intros Hcard. induction cards as [|li cards IH]; intros acc products Hacc Hloop.
  - simpl in Hloop. by injection Hloop as <-.
  - simpl in Hloop. destruct (card li) as [[p|]|e] eqn:Hli; simpl in Hloop;
      [| |done].
    + eapply IH; [|done]. apply Forall_app. split; [done|].
      apply Forall_singleton. by eapply Hcard.
    + by eapply IH.
Qed.

Lemma card_fields (li : Tag) (p : Obj.Product) :
  card li = Ok (Some p) ->
  card_title li = Some (Obj.title p) /\ Obj.price p = card_price li
  /\ card_category li = Ok (Obj.category p).
Proof.
  unfold card. destruct (card_category li) as [v|e]; simpl; [|done].
  destruct (card_title li) as [[|c t]|]; [done| |done].
  by intros [= <-].
Qed.

Lemma card_price_nonempty (li : Tag) (p : str) :
  card_price li = Some p -> p <> [].
Proof.
  unfold card_price.
  destruct (select_one li _) as [node|].
  - apply _text_or_none_nonempty.
  - destruct (Re.search price_pattern (get_text li false)) as [mo|] eqn:Hsearch;
      [|done].
    apply price_pattern_group in Hsearch as (p' & Hgroup & Hne & _).
    rewrite Hgroup. by intros [= <-].
Qed.

(** The loop of the card extractor, as a whole. *)
Lemma cards_loop_omap (cards : list Tag) :
  forall acc products,
    cards_loop cards acc = Ok products
    <-> Forall (fun li => exists found, card li = Ok found) cards
        /\ products = acc ++ omap card_listing cards.
Proof.
  induction cards as [|li cards IH]; intros acc products; simpl.
  - rewrite app_nil_r. split.
    + intros [= <-]. by split.
    + by intros [_ ->].
  - unfold card_listing at 1. destruct (card li) as [[p|]|e] eqn:Hli; simpl.
    + rewrite IH, <- app_assoc. simpl. split.
      * intros [Hall ->]. split; [|done]. constructor; [by eexists|done].
      * intros [Hall ->]. split; [|done]. by inversion Hall.
    + rewrite IH. split.
      * intros [Hall ->]. split; [|done]. constructor; [by eexists|done].
      * intros [Hall ->]. split; [|done]. by inversion Hall.
    + split; [done|]. intros [Hall _]. inversion Hall as [|? ? [found Hfound] _]; subst.
      by rewrite Hli in Hfound.
Qed.

Lemma length_omap_le {X Y} (f : X -> option Y) (l : list X) :
  (length (omap f l) <= length l)%nat.
Proof.
  induction l as [|x l IH]; simpl; [done|].
  change (list_omap X Y f l) with (omap f l).
  destruct (f x); simpl; lia.
Qed.

End ExtractionMore.

(** X1: every listing the card extractor returns has a title that is not
    empty; so when [extract_products] returns a listing with an empty
    title, the card extractor had found nothing and the listing comes
    from the script fallback. *)
Theorem card_listings_have_titles {B : Bs4} {J : Json} (html : str)
    (products : list Obj.Product) :
  (_extract_from_cards (BeautifulSoup html) = Ok products ->
   Forall (fun p => Obj.title p <> []) products)
  /\ (extract_products html = Ok products ->
      (exists p, p ∈ products /\ Obj.title p = []) ->
      _extract_from_cards (BeautifulSoup html) = Ok []
      /\ products = _extract_from_scripts (BeautifulSoup html)).
Proof.
  split.
  - apply cards_loop_titles. constructor.
  - unfold extract_products. cbv zeta.
    destruct (_extract_from_cards (BeautifulSoup html)) as [[|p0 ps]|e] eqn:Hcards;
      simpl; [by intros [= <-]| |done].
    intros [= <-] (p & Hin & Hempty).
    apply cards_loop_titles in Hcards; [|constructor].
    rewrite Forall_forall in Hcards. by destruct (Hcards p Hin).
Qed.

(** X2: the card extractor ends without an exception exactly when the
    turn of every candidate does, and it then returns the listings of
    the candidates that have one, in the order of the candidates: at most
    one listing per candidate, none left out, none added. *)
Theorem card_listings_follow_candidates {B : Bs4} {J : Json} (soup : Tag)
    (products : list Obj.Product) :
  (_extract_from_cards soup = Ok products
   <-> Forall (fun li => exists found, card li = Ok found) (candidates soup)
       /\ products = omap card_listing (candidates soup))
  /\ (_extract_from_cards soup = Ok products ->
      (length products <= length (candidates soup))%nat).
Proof.
  unfold _extract_from_cards. split.
  - apply (cards_loop_omap (candidates soup) [] products).
  - intros [_ ->]%cards_loop_omap. apply length_omap_le.
Qed.

(** X3: one candidate whose metadata decodes to a value that is truthy
    and not an object (a list, a number, a string) ends the whole
    extraction with an exception: [extract_products] returns no listing
    of the other candidates and does not fall back to the scripts. *)
Theorem non_object_metadata_aborts_extraction {B : Bs4} {J : Json} (html : str)
    (li : Tag) (raw : str) (v : json) :
  li ∈ candidates (BeautifulSoup html) ->
  metadata_raw li = Some raw -> raw <> [] ->
  json_loads raw = Ok v ->
  PyVal.truthy v = true -> (forall fields, v <> JObj fields) ->
  exists e, extract_products html = Raise e.
Proof.
  intros Hli Hraw Hne Hloads Htruthy Hobj.
  pose proof (card_not_object li raw v Hraw Hne Hloads Htruthy Hobj) as Hcard.
  unfold extract_products. cbv zeta.
  destruct (_extract_from_cards (BeautifulSoup html)) as [ps|e] eqn:Hcards;
    [|by exists e].
  apply cards_loop_omap in Hcards as [Hall _].
  rewrite Forall_forall in Hall. destruct (Hall li Hli) as [found Hfound].
  by rewrite Hcard in Hfound.
Qed.

(** X4: the category of a card comes from the object in its metadata:
    [cateLevel2Name] when that is a non-empty string, whatever
    [cateLevel1Name] holds, and [cateLevel1Name] when [cateLevel2Name]
    is missing, [null] or empty. *)
Theorem category_prefers_level2 {B : Bs4} {J : Json} (li : Tag)
    (raw : str) (fields : list (str * json)) (t : str) :
  metadata_raw li = Some raw -> raw <> [] ->
  json_loads raw = Ok (JObj fields) -> fields <> [] ->
  card_title li = Some t ->
  (forall s2, PyVal.lookup (PyStr.lit "cateLevel2Name") fields = JStr s2 -> s2 <> [] ->
     card li = Ok (Some (Obj.mkProduct t (card_price li) (JStr s2))))
  /\ (forall s1,
        PyVal.truthy (PyVal.lookup (PyStr.lit "cateLevel2Name") fields) = false ->
        PyVal.lookup (PyStr.lit "cateLevel1Name") fields = JStr s1 ->
        card li = Ok (Some (Obj.mkProduct t (card_price li) (JStr s1)))).
Proof.
  intros Hraw Hne Hloads Hfields Ht.
  assert (_parse_json_metadata li = Ok (JObj fields)) as Hmeta.
  { unfold _parse_json_metadata. rewrite Hraw.
    destruct raw as [|c s]; [done|]. by rewrite Hloads. }
  assert (exists c t', t = c :: t') as (c & t' & ->).
  { destruct t as [|c t']; [by apply card_title_nonempty in Ht|by eexists _, _]. }
  assert (PyVal.truthy (JObj fields) = true) as Htruthy by by destruct fields.
  assert (card_category li
          = if PyVal.truthy (JObj fields)
            then if PyVal.truthy (PyVal.lookup (PyStr.lit "cateLevel2Name") fields)
                 then Ok (PyVal.lookup (PyStr.lit "cateLevel2Name") fields)
                 else Ok (PyVal.lookup (PyStr.lit "cateLevel1Name") fields)
            else Ok JNull) as Hcategory.
  { unfold card_category. by rewrite Hmeta. }
  rewrite Htruthy in Hcategory.
  split.
  - intros s2 H2 Hs2. rewrite H2 in Hcategory.
    unfold card. rewrite Hcategory, Ht. by destruct s2.
  - intros s1 H2 H1. rewrite H2, H1 in Hcategory.
    unfold card. by rewrite Hcategory, Ht.
Qed.

(** X5: the price of a card listing is never the empty string: it is
    missing or has a character; and a price read by the [NT$] pattern,
    when the card has no price element, is made of digits and commas
    only. *)
Theorem card_price_shape {B : Bs4} {J : Json} (soup : Tag)
    (products : list Obj.Product) :
  _extract_from_cards soup = Ok products ->
  Forall (fun p => Obj.price p <> Some []) products
  /\ (forall li p,
        card li = Ok (Some p) ->
        select_one li
          (PyStr.lit "span.price, span[class*=price], em[class*=price], b[class*=price]")
        = None ->
        forall text, Obj.price p = Some text -> Forall ReSpec.price_char text).
Proof.
  intros Hcards. split.
  - apply (cards_loop_Forall (fun p => Obj.price p <> Some []) (candidates soup))
      with (acc := []); [|constructor|done].
    intros li p (_ & Hprice & _)%card_fields. rewrite Hprice. intros Hempty.
    by apply card_price_nonempty in Hempty.
  - intros li p (_ & Hprice & _)%card_fields Hnode text. rewrite Hprice.
    unfold card_price. rewrite Hnode.
    destruct (Re.search price_pattern (get_text li false)) as [mo|] eqn:Hsearch;
      [|done].
    apply price_pattern_group in Hsearch as (p' & Hgroup & _ & Hchars).
    rewrite Hgroup. by intros [= <-].
Qed.

(** X6: every listing of the script extractor has no category and has a
    price, which is not empty and made of digits and commas only; its
    title holds no newline. *)
Theorem script_listings_shape {B : Bs4} {J : Json} (soup : Tag) (p : Obj.Product) :
  p ∈ _extract_from_scripts soup ->
  Obj.category p = JNull
  /\ (exists text,
        Obj.price p = Some text /\ text <> [] /\ Forall ReSpec.price_char text)
  /\ Forall (fun x => x <> 10) (Obj.title p).
Proof.
  revert p. apply Forall_forall. unfold _extract_from_scripts.
  apply scripts_loop_Forall; [|constructor].
  intros text mo (t & pr & Ht & Hline & Hpr & Hne & Hchars)%script_pattern_groups.
  unfold script_product. rewrite Ht, Hpr. simpl.
  split; [done|]. split; [by exists pr|done].
Qed.

(** ** More on the filter *)

Section FilterMore.
Context {U : Unicode}.
Import PyStr.






End FilterMore.





(** ** More on the run *)

Section MainMore.
Context {U : Unicode} {P : Builtins} {B : Bs4} {J : Json} {W : World}.
Import PyStr.

(** Every run of [main]. *)
Lemma main_cases (args : Namespace) :
  main args =
    match fetch_html (url args) 15 with
    | Raise e => ([], Raise e)
    | Ok html =>
        match extract_products html with
        | Raise e => ([], Raise e)
        | Ok products =>
            match Obj.filter_products products (keyword args) with
            | Raise e => ([], Raise e)
            | Ok filtered =>
                let shown := apply_limit (limit args) filtered in
                match csv_path args with
                | Some path =>
                    if can_open path
                    then (CsvWritten path (csv_header :: map Obj.csv_row shown)
                            :: printed args shown, Ok tt)
                    else ([], Raise OSError)
                | None => (printed args shown, Ok tt)
                end
            end
        end
    end.
Proof.
  destruct (fetch_html (url args) 15) as [html|e] eqn:Hfetch.
  - destruct (extract_products html) as [products|e] eqn:Hextract.
    + destruct (Obj.filter_products products (keyword args)) as [filtered|e]
        eqn:Hfilter.
      * by rewrite (main_run args html products filtered Hfetch Hextract Hfilter).
      * unfold main.
        by rewrite Hfetch, bind_lift_ok, Hextract, bind_lift_ok, Hfilter.
    + unfold main. by rewrite Hfetch, bind_lift_ok, Hextract.
  - unfold main. by rewrite Hfetch.
Qed.

Lemma printed_prints (args : Namespace) (shown : list Obj.Product) :
  Forall (fun ev => exists line, ev = Print line) (printed args shown).
Proof.
  unfold printed. destruct shown as [|p shown].
  - repeat constructor. by eexists.
  - constructor; [by eexists|].
    destruct (csv_path args); repeat constructor. by eexists.
Qed.


(** [join] is the one step of the filter that can raise. *)
Lemma matches_keyword_raises (p : Obj.Product) (k : str) (e : failure) :
  Obj.matches_keyword p k = Raise e -> e = TypeError.
Proof.
  unfold Obj.matches_keyword. simpl.
  destruct (Obj.title p) as [|c t];
    (destruct (PyVal.truthy (Obj.category p)); simpl; [|done]);
    destruct (Obj.category p); simpl; try done; by intros [= <-].
Qed.

Lemma matches_keyword_non_string (p : Obj.Product) (k : str) :
  PyVal.truthy (Obj.category p) = true ->
  (forall s, Obj.category p <> JStr s) ->
  Obj.matches_keyword p k = Raise TypeError.
Proof.
  intros Htruthy Hstr. unfold Obj.matches_keyword. simpl. rewrite Htruthy.
  destruct (Obj.category p) as [| | | |s| |]; try done. by destruct (Hstr s).
Qed.

Lemma filter_products_raises (products : list Obj.Product) (k : str) (e : failure) :
  Obj.filter_products products k = Raise e -> e = TypeError.
Proof.
  induction products as [|p0 products IH]; simpl; [done|].
  destruct (Obj.matches_keyword p0 k) as [keep|e0] eqn:Hkeep; simpl.
  - destruct (Obj.filter_products products k) as [kept|e1]; simpl; [done|].
    intros [= <-]. by apply IH.
  - intros [= <-]. by apply matches_keyword_raises in Hkeep.
Qed.

Lemma filter_products_non_string (products : list Obj.Product) (k : str)
    (p : Obj.Product) :
  p ∈ products ->
  PyVal.truthy (Obj.category p) = true ->
  (forall s, Obj.category p <> JStr s) ->
  Obj.filter_products products k = Raise TypeError.
Proof.
  intros Hin Htruthy Hstr.
  destruct (Obj.filter_products products k) as [filtered|e] eqn:Hk;
    [|by rewrite (filter_products_raises products k e Hk)].
  exfalso. revert filtered Hk.
  induction products as [|p0 products IH]; intros filtered;
    [by apply elem_of_nil in Hin|].
  simpl. apply elem_of_cons in Hin as [<-|Hin].
  - by rewrite (matches_keyword_non_string p k Htruthy Hstr).
  - destruct (Obj.matches_keyword p0 k); simpl; [|done].
    destruct (Obj.filter_products products k) as [kept|]; simpl; [|done].
    intros _. by apply (IH Hin kept).
Qed.

End MainMore.


(** X12: with [--limit 0] a run reports that no product matches, even
    when listings pass the filter; a CSV file that was asked for holds
    the header row alone. *)
Theorem limit_zero_reports_no_match
    {U : Unicode} {P : Builtins} {B : Bs4} {J : Json} {W : World}
    (args : Namespace) (html : str) (products filtered : list Obj.Product) :
  limit args = Some 0%Z ->
  fetch_html (url args) 15 = Ok html ->
  extract_products html = Ok products ->
  Obj.filter_products products (keyword args) = Ok filtered ->
  main args =
    match csv_path args with
    | None => ([Print (PyStr.lit "No matching products found.")], Ok tt)
    | Some path =>
        if can_open path
        then ([CsvWritten path [csv_header];
               Print (PyStr.lit "No matching products found.")], Ok tt)
        else ([], Raise OSError)
    end.
Proof.
  intros Hlimit Hfetch Hextract Hfilter.
  rewrite (main_run args html products filtered Hfetch Hextract Hfilter), Hlimit.
  cbv zeta. by change (apply_limit (Some 0%Z) filtered) with (@nil Obj.Product).
Qed.

(** X13: when the download, the extraction or the filter ends with an
    exception, the run ends with that exception: nothing is printed and
    no file is written. *)
Theorem failure_leaves_no_output
    {U : Unicode} {P : Builtins} {B : Bs4} {J : Json} {W : World}
    (args : Namespace) (e : failure) :
  (fetch_html (url args) 15 = Raise e -> main args = ([], Raise e))
  /\ (forall html,
        fetch_html (url args) 15 = Ok html ->
        extract_products html = Raise e ->
        main args = ([], Raise e))
  /\ (forall html products,
        fetch_html (url args) 15 = Ok html ->
        extract_products html = Ok products ->
        Obj.filter_products products (keyword args) = Raise e ->
        main args = ([], Raise e)).
Proof.
  split; [|split].
  - intros Hfetch. by rewrite main_cases, Hfetch.
  - intros html Hfetch Hextract. by rewrite main_cases, Hfetch, Hextract.
  - intros html products Hfetch Hextract Hfilter.
    by rewrite main_cases, Hfetch, Hextract, Hfilter.
Qed.

(** X14: when the CSV file cannot be opened, the run ends with [OSError]
    before anything is printed, also when listings were found. *)
Theorem unwritable_csv_prints_nothing
    {U : Unicode} {P : Builtins} {B : Bs4} {J : Json} {W : World}
    (args : Namespace) (html : str) (products filtered : list Obj.Product)
    (path : str) :
  fetch_html (url args) 15 = Ok html ->
  extract_products html = Ok products ->
  Obj.filter_products products (keyword args) = Ok filtered ->
  csv_path args = Some path ->
  can_open path = false ->
  main args = ([], Raise OSError).
Proof.
  intros Hfetch Hextract Hfilter Hpath Hopen.
  by rewrite (main_run args html products filtered Hfetch Hextract Hfilter),
       Hpath, Hopen.
Qed.

(** X15: without [--csv] no run writes a file: whatever the page and the
    outcome, everything the run leaves behind is a printed line. *)
Theorem no_csv_path_no_file
    {U : Unicode} {P : Builtins} {B : Bs4} {J : Json} {W : World}
    (args : Namespace) :
  csv_path args = None ->
  Forall (fun ev => exists line, ev = Print line) (fst (main args)).
Proof.
  intros Hpath. rewrite main_cases, Hpath.
  destruct (fetch_html (url args) 15) as [html|e]; [|constructor].
  destruct (extract_products html) as [products|e]; [|constructor].
  destruct (Obj.filter_products products (keyword args)) as [filtered|e];
    [|constructor].
  apply printed_prints.
Qed.

(** X16: a CSV file written by a run is the file asked for with [--csv];
    its first row is [title,price,category], every row has three cells,
    and below the header there is one row per listing shown, as many as
    the limit step kept. *)
Theorem csv_file_shape
    {U : Unicode} {P : Builtins} {B : Bs4} {J : Json} {W : World}
    (args : Namespace) (path : str) (rows : list (list str)) :
  CsvWritten path rows ∈ fst (main args) ->
  csv_path args = Some path
  /\ head rows = Some csv_header
  /\ Forall (fun row => length row = 3%nat) rows
  /\ exists html products filtered,
       fetch_html (url args) 15 = Ok html
       /\ extract_products html = Ok products
       /\ Obj.filter_products products (keyword args) = Ok filtered
       /\ length rows = S (length (apply_limit (limit args) filtered)).
Proof.
  rewrite main_cases.
  destruct (fetch_html (url args) 15) as [html|e] eqn:Hfetch;
    [|by intros ?%elem_of_nil].
  destruct (extract_products html) as [products|e] eqn:Hextract;
    [|by intros ?%elem_of_nil].
  destruct (Obj.filter_products products (keyword args)) as [filtered|e] eqn:Hfilter;
    [|by intros ?%elem_of_nil].
  cbv zeta.
  set (shown := apply_limit (limit args) filtered).
  assert (forall p, ¬ CsvWritten path rows ∈ printed args p) as Hprinted.
  { intros p Hin. pose proof (printed_prints args p) as Hall.
    rewrite Forall_forall in Hall. by destruct (Hall _ Hin). }
  destruct (csv_path args) as [path'|]; [|by intros ?%Hprinted].
  destruct (can_open path'); [|by intros ?%elem_of_nil].
  intros [Heq|Hin%Hprinted]%elem_of_cons; [|done].
  injection Heq as -> ->.
  split; [done|]. split; [done|]. split.
  - constructor; [done|]. apply Forall_forall.
    by intros row (p & -> & _)%list_elem_of_fmap.
  - exists html, products, filtered. split; [done|]. split; [done|]. split; [done|].
    simpl. by rewrite length_map.
Qed.

(** X20: a listing whose category is truthy and not a string (a number,
    [true], a non-empty list or object taken from the metadata) cannot
    be asked for a match: [join] raises [TypeError].  The filter raises
    it for every list that holds such a listing, whatever the keyword,
    and the run ends with it: nothing is printed and no file is
    written. *)
Theorem non_string_category_ends_run
    {U : Unicode} {P : Builtins} {B : Bs4} {J : Json} {W : World}
    (args : Namespace) (html : str) (products : list Obj.Product) (p : Obj.Product) :
  fetch_html (url args) 15 = Ok html ->
  extract_products html = Ok products ->
  p ∈ products ->
  PyVal.truthy (Obj.category p) = true ->
  (forall s, Obj.category p <> JStr s) ->
  (forall keyword, Obj.filter_products products keyword = Raise TypeError)
  /\ main args = ([], Raise TypeError).
Proof.
  intros Hfetch Hextract Hin Htruthy Hstr.
  assert (forall keyword, Obj.filter_products products keyword = Raise TypeError)
    as Hfilter by (intros k; by apply (filter_products_non_string products k p)).
  split; [exact Hfilter|].
  by rewrite main_cases, Hfetch, Hextract, Hfilter.
Qed.

(** X19: the text output puts the lines of the listings one below the
    other: for two lists that are not empty, the text of the lists put
    end to end is the text of the first, a newline, and the text of the
    second; the text of listings is never empty. *)
Theorem format_products_append (l1 l2 : list Product) :
  l1 <> [] -> l2 <> [] ->
  format_products (l1 ++ l2) = format_products l1 ++ [10] ++ format_products l2
  /\ format_products l1 <> [].
Proof.
  intros H1 H2. unfold format_products. split.
  - rewrite map_app.
    induction l1 as [|p l1 IH]; [done|]. simpl map.
    destruct l1 as [|p' l1].
    + simpl. by destruct l2.
    + change (PyStr.join [10] ((format_line p :: map format_line (p' :: l1)) ++ map format_line l2))
        with (format_line p ++ [10]
              ++ PyStr.join [10] (map format_line (p' :: l1) ++ map format_line l2)).
      rewrite IH by done.
      change (PyStr.join [10] (format_line p :: map format_line (p' :: l1)))
        with (format_line p ++ [10] ++ PyStr.join [10] (map format_line (p' :: l1))).
      by rewrite <- !app_assoc.
  - destruct l1 as [|p l1]; [done|]. simpl. by destruct (map format_line l1).
Qed.

(** ** Instances of the further properties *)

Section MoreWitnesses.
Import PyStr Examples MoreExamples.

Lemma card_listings_have_titles_witness :
  _extract_from_cards (B := card_soup) (J := no_json)
    (BeautifulSoup (Bs4 := card_soup) card_page_source)
  = Ok (map instance_of [phone_a; tablet_b])
  /\ Forall (fun p => Obj.title p <> []) (map instance_of [phone_a; tablet_b]).
Proof.
  assert (_extract_from_cards (B := card_soup) (J := no_json)
            (BeautifulSoup (Bs4 := card_soup) card_page_source)
          = Ok (map instance_of [phone_a; tablet_b])) as Hcards
    by (vm_compute; reflexivity).
  split; [exact Hcards|].
  exact (proj1 (card_listings_have_titles (B := card_soup) (J := no_json)
                  card_page_source (map instance_of [phone_a; tablet_b])) Hcards).
Defined.

Lemma card_listings_follow_candidates_witness :
  _extract_from_cards (B := five_soup) (J := decoder) five_page
  = Ok [Obj.mkProduct (lit "Tablet T") None (JInt 5)]
  /\ (length [Obj.mkProduct (lit "Tablet T") None (JInt 5)]
      <= length (candidates (B := five_soup) five_page))%nat.
Proof.
  assert (_extract_from_cards (B := five_soup) (J := decoder) five_page
          = Ok [Obj.mkProduct (lit "Tablet T") None (JInt 5)]) as Hcards
    by (vm_compute; reflexivity).
  split; [exact Hcards|].
  exact (proj2 (card_listings_follow_candidates (B := five_soup) (J := decoder)
                  five_page [Obj.mkProduct (lit "Tablet T") None (JInt 5)]) Hcards).
Defined.

Lemma non_object_metadata_aborts_extraction_witness :
  array_card ∈ candidates (B := array_soup)
                 (BeautifulSoup (Bs4 := array_soup) array_page_source)
  /\ exists e, extract_products (B := array_soup) (J := decoder) array_page_source
               = Raise e.
Proof.
  assert (array_card ∈ candidates (B := array_soup)
                          (BeautifulSoup (Bs4 := array_soup) array_page_source))
    as Hli by (vm_compute; right; left).
  split; [exact Hli|].
  refine (non_object_metadata_aborts_extraction (B := array_soup) (J := decoder)
            array_page_source array_card (lit "[1]") (JArr [JInt 1]) Hli _ _ _ _ _).
  - vm_compute. reflexivity.
  - vm_compute. discriminate.
  - vm_compute. reflexivity.
  - reflexivity.
  - intros fields. discriminate.
Defined.

Lemma category_prefers_level2_witness :
  json_loads (Json := decoder) category_json = Ok category_object
  /\ card (B := category_soup) (J := decoder) category_card
     = Ok (Some (Obj.mkProduct (lit "Phone A")
                   (card_price (B := category_soup) category_card)
                   (JStr (lit "AI Phone")))).
Proof.
  assert (json_loads (Json := decoder) category_json = Ok category_object)
    as Hloads by (vm_compute; reflexivity).
  split; [exact Hloads|].
  refine (proj1 (category_prefers_level2 (B := category_soup) (J := decoder)
                   category_card category_json
                   [(lit "cateLevel2Name", JStr (lit "AI Phone"));
                    (lit "cateLevel1Name", JStr (lit "3C"))]
                   (lit "Phone A") _ _ Hloads _ _) (lit "AI Phone") _ _).
  - vm_compute. reflexivity.
  - vm_compute. discriminate.
  - discriminate.
  - vm_compute. reflexivity.
  - vm_compute. reflexivity.
  - vm_compute. discriminate.
Defined.

Lemma card_price_shape_witness :
  _extract_from_cards (B := card_soup) (J := no_json) card_page
  = Ok (map instance_of [phone_a; tablet_b])
  /\ Forall (fun p => Obj.price p <> Some []) (map instance_of [phone_a; tablet_b]).
Proof.
  assert (_extract_from_cards (B := card_soup) (J := no_json) card_page
          = Ok (map instance_of [phone_a; tablet_b])) as Hcards
    by (vm_compute; reflexivity).
  split; [exact Hcards|].
  exact (proj1 (card_price_shape (B := card_soup) (J := no_json) card_page
                  (map instance_of [phone_a; tablet_b]) Hcards)).
Defined.

Lemma script_listings_shape_witness :
  Obj.mkProduct [] (Some (lit "9,999")) JNull
    ∈ _extract_from_scripts (B := script_soup) script_page
  /\ exists text,
       Obj.price (Obj.mkProduct [] (Some (lit "9,999")) JNull) = Some text
       /\ text <> [] /\ Forall ReSpec.price_char text.
Proof.
  assert (Obj.mkProduct [] (Some (lit "9,999")) JNull
            ∈ _extract_from_scripts (B := script_soup) script_page)
    as Hin by (vm_compute; left).
  split; [exact Hin|].
  exact (proj1 (proj2 (script_listings_shape (B := script_soup) (J := no_json)
                         script_page _ Hin))).
Defined.




Lemma limit_zero_reports_no_match_witness :
  Obj.filter_products (U := Dom.ascii_tables) (map instance_of [phone_a; tablet_b])
    (keyword limit_zero)
  = Ok (map instance_of [phone_a; tablet_b])
  /\ main (U := Dom.ascii_tables) (P := Dom.builtins) (B := card_soup) (J := no_json)
       (W := card_site) limit_zero
     = ([CsvWritten (lit "out.csv") [csv_header];
         Print (lit "No matching products found.")], Ok tt).
Proof.
  assert (extract_products (B := card_soup) (J := no_json) card_page_source
          = Ok (map instance_of [phone_a; tablet_b])) as Hextract
    by (vm_compute; reflexivity).
  assert (Obj.filter_products (U := Dom.ascii_tables)
            (map instance_of [phone_a; tablet_b]) (keyword limit_zero)
          = Ok (map instance_of [phone_a; tablet_b])) as Hfilter
    by (vm_compute; reflexivity).
  split; [exact Hfilter|].
  exact (limit_zero_reports_no_match (U := Dom.ascii_tables) (P := Dom.builtins)
           (B := card_soup) (J := no_json) (W := card_site) limit_zero
           card_page_source (map instance_of [phone_a; tablet_b])
           (map instance_of [phone_a; tablet_b]) eq_refl eq_refl Hextract Hfilter).
Defined.

Lemma failure_leaves_no_output_witness :
  fetch_html (W := missing_site) (url plain) 15 = Raise HTTPError
  /\ main (U := Dom.ascii_tables) (P := Dom.builtins) (B := card_soup) (J := no_json)
       (W := missing_site) plain = ([], Raise HTTPError).
Proof.
  assert (fetch_html (W := missing_site) (url plain) 15 = Raise HTTPError)
    as Hfetch by reflexivity.
  split; [exact Hfetch|].
  exact (proj1 (failure_leaves_no_output (U := Dom.ascii_tables) (P := Dom.builtins)
                  (B := card_soup) (J := no_json) (W := missing_site) plain
                  HTTPError) Hfetch).
Defined.

Lemma unwritable_csv_prints_nothing_witness :
  can_open (World := read_only_site) (lit "out.csv") = false
  /\ main (U := Dom.ascii_tables) (P := Dom.builtins) (B := card_soup) (J := no_json)
       (W := read_only_site) json_and_csv = ([], Raise OSError).
Proof.
  assert (extract_products (B := card_soup) (J := no_json) card_page_source
          = Ok (map instance_of [phone_a; tablet_b])) as Hextract
    by (vm_compute; reflexivity).
  assert (Obj.filter_products (U := Dom.ascii_tables)
            (map instance_of [phone_a; tablet_b]) (keyword json_and_csv)
          = Ok (map instance_of [phone_a; tablet_b])) as Hfilter
    by (vm_compute; reflexivity).
  split; [reflexivity|].
  exact (unwritable_csv_prints_nothing (U := Dom.ascii_tables) (P := Dom.builtins)
           (B := card_soup) (J := no_json) (W := read_only_site) json_and_csv
           card_page_source (map instance_of [phone_a; tablet_b])
           (map instance_of [phone_a; tablet_b]) (lit "out.csv")
           eq_refl Hextract Hfilter eq_refl eq_refl).
Defined.

Lemma no_csv_path_no_file_witness :
  csv_path plain = None
  /\ Forall (fun ev => exists line, ev = Print line)
       (fst (main (U := Dom.ascii_tables) (P := Dom.builtins) (B := card_soup)
               (J := no_json) (W := card_site) plain)).
Proof.
  split; [reflexivity|].
  exact (no_csv_path_no_file (U := Dom.ascii_tables) (P := Dom.builtins)
           (B := card_soup) (J := no_json) (W := card_site) plain eq_refl).
Defined.

Lemma csv_file_shape_witness :
  CsvWritten (lit "out.csv")
    (csv_header :: map (Obj.csv_row (P := Dom.builtins))
                     (map instance_of [phone_a; tablet_b]))
    ∈ fst (main (U := Dom.ascii_tables) (P := Dom.builtins) (B := card_soup)
             (J := no_json) (W := card_site) json_and_csv)
  /\ Forall (fun row => length row = 3%nat)
       (csv_header :: map (Obj.csv_row (P := Dom.builtins))
                        (map instance_of [phone_a; tablet_b])).
Proof.
  assert (CsvWritten (lit "out.csv")
            (csv_header :: map (Obj.csv_row (P := Dom.builtins))
                             (map instance_of [phone_a; tablet_b]))
            ∈ fst (main (U := Dom.ascii_tables) (P := Dom.builtins) (B := card_soup)
                     (J := no_json) (W := card_site) json_and_csv)) as Hin
    by (vm_compute; left).
  split; [exact Hin|].
  exact (proj1 (proj2 (proj2 (csv_file_shape (U := Dom.ascii_tables)
                                (P := Dom.builtins) (B := card_soup)
                                (J := no_json) (W := card_site) json_and_csv
                                _ _ Hin)))).
Defined.

Lemma non_string_category_ends_run_witness :
  extract_products (B := five_soup) (J := decoder) five_page_source
  = Ok [Obj.mkProduct (lit "Tablet T") None (JInt 5)]
  /\ main (U := Dom.ascii_tables) (P := Dom.builtins) (B := five_soup) (J := decoder)
       (W := five_site) tablets_json_and_csv = ([], Raise TypeError).
Proof.
  assert (extract_products (B := five_soup) (J := decoder) five_page_source
          = Ok [Obj.mkProduct (lit "Tablet T") None (JInt 5)]) as Hextract
    by (vm_compute; reflexivity).
  split; [exact Hextract|].
  refine (proj2 (non_string_category_ends_run (U := Dom.ascii_tables)
                   (P := Dom.builtins) (B := five_soup) (J := decoder)
                   (W := five_site) tablets_json_and_csv five_page_source
                   [Obj.mkProduct (lit "Tablet T") None (JInt 5)]
                   (Obj.mkProduct (lit "Tablet T") None (JInt 5))
                   eq_refl Hextract _ eq_refl _)).
  - left.
  - intros s. discriminate.
Defined.

Lemma format_products_append_witness :
  [phone_a] <> [] /\ [tablet_b] <> []
  /\ format_products ([phone_a] ++ [tablet_b])
     = format_products [phone_a] ++ [10] ++ format_products [tablet_b].
Proof.
  assert ([phone_a] <> []) as H1 by discriminate.
  assert ([tablet_b] <> []) as H2 by discriminate.
  split; [exact H1|]. split; [exact H2|].
  exact (proj1 (format_products_append [phone_a] [tablet_b] H1 H2)).
Defined.

End MoreWitnesses.
